(** * systemd user unit monitor: filter, collection, emission, reconciliation

    A shallow embedding of [systemd_unit_monitor.py].  The Python module
    watches systemd user units over D-Bus and republishes their state to a
    Telegraf socket in InfluxDB line protocol.  The embedding follows the
    methods of [SystemdUnitMonitor] one by one:

    - [fnmatch] and [_should_monitor_unit]      (the filter engine),
    - [get_unit_stats]                          (the stats collector),
    - [send_to_telegraf]                        (the metric emitter),
    - [get_all_units], [on_unit_new], [on_unit_removed],
      [on_properties_changed], [collect_and_send_unit_stats],
      [poll_units]                              (the reconciler).

    Python [str] is modelled by [string], one [ascii] per character: the
    [ascii] with number [n] is the character with code point [n], so the
    model covers text whose characters lie below U+0100, and on it the
    length of a string, the order of two characters, what [?] matches and
    what counts as white space are as Python has them.  The payload of a
    [SocketSend] is the line that [line.encode("utf-8")] is applied to.
    Python [int] is modelled by [Z], Python
    [float] by the IEEE-754 binary64 values of [spec_float], the dict
    [self.units] by a [gmap], the set [self.filtered_units] by a [gset].
    Everything the program does to the outside (D-Bus calls, the clock, the
    logger, the socket) and every mutation of its two containers is recorded,
    in program order, in a trace of events. *)

From Stdlib Require Import ZArith List Bool Ascii String DecimalString.
From Stdlib Require Import Floats.SpecFloat.
From stdpp Require Import gmap strings.

Local Open Scope string_scope.
Local Open Scope Z_scope.

(** ** Strings *)

Module Str.

(** The double quote and the newline, as one-character strings. *)
Definition dquote : string := String "034"%char EmptyString.
Definition newline : string := String "010"%char EmptyString.

(** [sep.join(parts)] *)
Definition join (sep : string) (parts : list string) : string :=
  String.concat sep parts.

(** [s.endswith(suffix)] *)
Definition endswith (s suffix : string) : bool :=
  let n := String.length s in
  let k := String.length suffix in
  (k <=? n)%nat && String.eqb (substring (n - k) k s) suffix.

(** [str(n)] and [f"{n}"] for a Python [int]. *)
Definition of_int (n : Z) : string :=
  NilZero.string_of_int (Z.to_int n).

(** [c in s] for a one-character [c]. *)
Fixpoint mem (c : ascii) (s : string) : bool :=
  match s with
  | EmptyString => false
  | String d s' => Ascii.eqb c d || mem c s'
  end.

Definition first (s : string) : option ascii :=
  match s with
  | EmptyString => None
  | String c _ => Some c
  end.

Fixpoint last (s : string) : option ascii :=
  match s with
  | EmptyString => None
  | String c EmptyString => Some c
  | String _ s' => last s'
  end.

(** [s[:-1]] and [s[1:]] *)
Fixpoint drop_last (s : string) : string :=
  match s with
  | EmptyString => EmptyString
  | String _ EmptyString => EmptyString
  | String c s' => String c (drop_last s')
  end.

Definition drop_first (s : string) : string :=
  match s with
  | EmptyString => EmptyString
  | String _ s' => s'
  end.

(** Order of two characters by code point, as Python compares
    one-character strings. *)
Definition char_le (a b : ascii) : bool :=
  (nat_of_ascii a <=? nat_of_ascii b)%nat.

End Str.

(** ** The filter engine

    [fnmatch.fnmatch(name, pat)] of the Python standard library on a POSIX
    host: [os.path.normcase] is the identity there, and the pattern is
    translated by [fnmatch.translate] to a regular expression that has to
    match the whole name.  [translate] below produces the same sequence of
    pattern items, [glob_match] gives them the meaning of the regular
    expression. *)

Module Fnmatch.

Inductive item : Type :=
| Star                                     (* [*]  : any run of characters *)
| AnyChar                                  (* [?]  : exactly one character *)
| Lit (c : ascii)                          (* an ordinary character *)
| Class (negated : bool) (chunks : list string).
                                           (* [[...]] and [[!...]] *)

(** The text between the brackets (a leading [!] included) is cut at the
    hyphens that stand for a range.  The search for the first hyphen
    starts at index 1, or 2 after a leading [!]; after a cut at index [k]
    the next hyphen is searched from index [k+3].  [skip] counts the
    characters that still have to pass before a hyphen cuts.  A hyphen
    that ends the text cuts too, and the empty chunk after it gives the
    hyphen back to the chunk before it. *)
Fixpoint split_chunks (skip : nat) (cur : string) (stuff : string)
  : list string :=
  match stuff with
  | EmptyString => [cur]
  | String c stuff' =>
      match skip with
      | O =>
          if Ascii.eqb c "-"
          then match stuff' with
               | EmptyString => [cur ++ "-"]
               | _ => cur :: split_chunks 2 EmptyString stuff'
               end
          else split_chunks 0 (cur ++ String c EmptyString) stuff'
      | S skip' => split_chunks skip' (cur ++ String c EmptyString) stuff'
      end
  end.

(** Empty ranges are removed from the right: when the last character of a
    chunk is above the first character of the next one, both end points
    go and the two chunks are glued. *)
Fixpoint remove_empty_ranges (chunks : list string) : list string :=
  match chunks with
  | [] => []
  | c :: rest =>
      match remove_empty_ranges rest with
      | [] => [c]
      | d :: rest' =>
          match Str.last c, Str.first d with
          | Some a, Some b =>
              if Str.char_le a b then c :: d :: rest'
              else (Str.drop_last c ++ Str.drop_first d) :: rest'
          | _, _ => c :: d :: rest'
          end
      end
  end.

Definition starts_with_bang (s : string) : bool :=
  match s with
  | String c _ => Ascii.eqb c "!"
  | EmptyString => false
  end.

(** The class of a bracket text.  The complement sign is looked for
    after the empty ranges are gone, at the head of the first chunk. *)
Definition class_of (stuff : string) : item :=
  let chunks :=
    remove_empty_ranges
      (split_chunks (if starts_with_bang stuff then 2 else 1) EmptyString stuff) in
  match chunks with
  | [] => Class false []
  | c :: rest =>
      if starts_with_bang c then Class true (Str.drop_first c :: rest)
      else Class false chunks
  end.

(** The closing bracket of a class that opens just before [rest]: a
    leading [!] and a closing bracket right after it do not close.
    Returns the text between the brackets and what follows the closing
    bracket. *)
Fixpoint scan_close (s : string) : option (string * string) :=
  match s with
  | EmptyString => None
  | String c s' =>
      if Ascii.eqb c "]" then Some (EmptyString, s')
      else match scan_close s' with
           | Some (a, b) => Some (String c a, b)
           | None => None
           end
  end.

Definition find_close (rest : string) : option (string * string) :=
  let '(bang, r1) :=
    match rest with
    | String c r => if Ascii.eqb c "!" then ("!", r) else (EmptyString, rest)
    | EmptyString => (EmptyString, rest)
    end in
  let '(head, r2) :=
    match r1 with
    | String c r => if Ascii.eqb c "]" then ("]", r) else (EmptyString, r1)
    | EmptyString => (EmptyString, r1)
    end in
  match scan_close r2 with
  | Some (a, b) => Some (bang ++ head ++ a, b)
  | None => None
  end.

(** [fnmatch.translate], one pattern character at a time.  [fuel] bounds
    the number of pattern characters still to read; [prev_star] says
    that the item just produced is a [Star], so that a run of [*] gives
    one item.  A bracket that is never closed is an ordinary character. *)
Fixpoint translate_from (fuel : nat) (prev_star : bool) (pat : string)
  : list item :=
  match fuel with
  | O => []
  | S fuel' =>
      match pat with
      | EmptyString => []
      | String c rest =>
          if Ascii.eqb c "*" then
            if prev_star then translate_from fuel' true rest
            else Star :: translate_from fuel' true rest
          else if Ascii.eqb c "?" then
            AnyChar :: translate_from fuel' false rest
          else if Ascii.eqb c "[" then
            match find_close rest with
            | None => Lit "[" :: translate_from fuel' false rest
            | Some (stuff, rest') =>
                class_of stuff :: translate_from fuel' false rest'
            end
          else Lit c :: translate_from fuel' false rest
      end
  end.

Definition translate (pat : string) : list item :=
  translate_from (String.length pat) false pat.

(** Membership of a character in a class, as the regular expression
    reads the chunks joined by hyphens: the characters of a chunk stand
    for themselves, and the hyphen between two chunks makes a range from
    the last character of the first to the first character of the
    second.  A joining hyphen with nothing before it stands for itself. *)
Fixpoint in_ranges (c : ascii) (chunks : list string) : bool :=
  match chunks with
  | a :: ((b :: _) as rest) =>
      match Str.last a, Str.first b with
      | Some lo, Some hi => Str.char_le lo c && Str.char_le c hi
      | _, _ => Ascii.eqb c "-"
      end || in_ranges c rest
  | _ => false
  end.

Definition in_class (c : ascii) (chunks : list string) : bool :=
  existsb (Str.mem c) chunks || in_ranges c chunks.

Definition item_match (i : item) (c : ascii) : bool :=
  match i with
  | Star => true
  | AnyChar => true
  | Lit d => Ascii.eqb c d
  | Class negated chunks => xorb negated (in_class c chunks)
  end.

(** The whole name has to be consumed; [Star] tries every split. *)
Fixpoint glob_match (items : list item) (name : string) : bool :=
  match items with
  | [] => match name with EmptyString => true | _ => false end
  | Star :: items' =>
      (fix star (s : string) : bool :=
         glob_match items' s ||
         match s with
         | EmptyString => false
         | String _ s' => star s'
         end) name
  | i :: items' =>
      match name with
      | EmptyString => false
      | String c name' => item_match i c && glob_match items' name'
      end
  end.

Definition fnmatch (name pat : string) : bool :=
  glob_match (translate pat) name.

End Fnmatch.

(** [any(fnmatch.fnmatch(unit_name, pattern) for pattern in patterns)] *)
Definition any_match (unit_name : string) (patterns : list string) : bool :=
  existsb (Fnmatch.fnmatch unit_name) patterns.

(** Truth value of a Python list: false exactly for the empty list. *)
Definition truthy {A : Type} (l : list A) : bool :=
  match l with
  | [] => false
  | _ :: _ => true
  end.

(** [SystemdUnitMonitor._should_monitor_unit], with the two pattern lists of
    [self] as arguments. *)
Definition _should_monitor_unit
  (include_patterns exclude_patterns : list string) (unit_name : string) : bool :=
  if truthy include_patterns && negb (any_match unit_name include_patterns)
  then false
  else negb (truthy exclude_patterns && any_match unit_name exclude_patterns).

(** ** Data model *)

(** The dataclass [UnitStats]. *)
Record UnitStats : Type := {
  name : string;
  active_state : string;
  sub_state : string;
  load_state : string;
  unit_file_state : string;
  main_pid : Z;
  restart_count : Z;
  memory_current : Z;
  cpu_usage_nsec : Z;
  timestamp : spec_float
}.

(** The attributes of [SystemdUnitMonitor] that are fixed by [__init__]:
    the resolved configuration values and the identity of the process. *)
Record Config : Type := {
  measurement : string;
  telegraf_socket_path : string;
  include_patterns : list string;
  exclude_patterns : list string;
  username : string;
  uid : Z
}.

(** A raised exception, with the text that [f"{e}"] prints.  Only
    exceptions below [Exception] are modelled; these are the ones the
    [except Exception] clauses of the program catch. *)
Inductive exn : Type := Exception (message : string).

Definition str_exn (e : exn) : string :=
  match e with Exception message => message end.

Inductive result (A : Type) : Type :=
| Ok (value : A)
| Raise (e : exn).
Arguments Ok {A} value.
Arguments Raise {A} e.

Inductive level : Type := DEBUG | INFO | WARNING | ERROR.

(** What the program does, in the order in which it does it. *)
Inductive event : Type :=
| CallListUnits                                   (* manager.ListUnits() *)
| CallGetUnit (unit_name : string)                (* manager.GetUnit(name) *)
| CallGetObject (unit_path : string)              (* session_bus.get_object(..) *)
| CallGet (unit_path interface property : string) (* unit_props.Get(..) *)
| CallTime                                        (* time.time() *)
| Log (lvl : level) (message : string)            (* self.logger.<lvl>(message) *)
| SocketOpen                                      (* socket.socket(..) *)
| SocketConnect (path : string)                   (* sock.connect(path) *)
| SocketSend (data : string)                      (* sock.send(data.encode(..)) *)
| SocketClose                                     (* sock.close() *)
| UnitsSet (unit_name : string) (stats : UnitStats)  (* self.units[name] = stats *)
| UnitsPop (unit_name : string)                   (* self.units.pop(name, None) *)
| ScopeAdd (unit_name : string)                   (* self.filtered_units.add(name) *)
| ScopeDiscard (unit_name : string).              (* self.filtered_units.discard(name) *)

(** The mutable part of [SystemdUnitMonitor], and the trace. *)
Record Monitor : Type := {
  units : gmap string UnitStats;
  filtered_units : gset string;
  trace : list event
}.

(** The world outside: what each call answers.  [Get_str] is the outcome of
    [str(unit_props.Get(interface, property))] and [Get_int] the outcome of
    [int(unit_props.Get(interface, property))]: the call or the conversion
    may raise.  [ListUnits] answers the names, the component [unit_info[0]]
    of every entry.  The clock is read at a logical instant, the number of
    events so far. *)
Record Env : Type := {
  ListUnits : result (list string);
  GetUnit : string -> result string;
  get_object : string -> result unit;
  Get_str : string -> string -> string -> result string;
  Get_int : string -> string -> string -> result Z;
  time_time : nat -> spec_float;
  socket_socket : result unit;
  sock_connect : string -> result unit;
  sock_send : string -> result unit;
  sock_close : result unit
}.

(** ** Computations: state, trace and exceptions *)

Definition M (A : Type) : Type := Monitor -> result A * Monitor.

Definition ret {A : Type} (a : A) : M A := fun w => (Ok a, w).

Definition bind {A B : Type} (m : M A) (k : A -> M B) : M B :=
  fun w =>
    match m w with
    | (Ok a, w') => k a w'
    | (Raise e, w') => (Raise e, w')
    end.

Declare Scope m_scope.
Delimit Scope m_scope with m.
Notation "x <- m ;; k" := (bind m (fun x => k))
  (at level 100, m at next level, right associativity) : m_scope.
Notation "m ;;; k" := (bind m (fun _ => k))
  (at level 100, right associativity) : m_scope.
Local Open Scope m_scope.

(** [try: body except Exception as e: handler(e)] *)
Definition try_except {A : Type} (body : M A) (handler : exn -> M A) : M A :=
  fun w =>
    match body w with
    | (Ok a, w') => (Ok a, w')
    | (Raise e, w') => handler e w'
    end.

(** [try: body finally: final]: [final] runs on both ways out; what [body]
    raised is raised again afterwards, unless [final] raises itself. *)
Definition try_finally {A : Type} (body : M A) (final : M unit) : M A :=
  fun w =>
    match body w with
    | (r, w') =>
        match final w' with
        | (Ok _, w'') => (r, w'')
        | (Raise e, w'') => (Raise e, w'')
        end
    end.

(** The outcome of [body] as a value; nothing is raised. *)
Definition attempt {A : Type} (body : M A) : M (result A) :=
  fun w => match body w with (r, w') => (Ok r, w') end.

Definition record (ev : event) : M unit :=
  fun w => (Ok tt, {| units := units w;
                      filtered_units := filtered_units w;
                      trace := trace w ++ [ev] |}).

(** An outside call: recorded, then answered. *)
Definition call {A : Type} (ev : event) (answer : result A) : M A :=
  record ev ;;; fun w => (answer, w).

Definition log (lvl : level) (message : string) : M unit :=
  record (Log lvl message).

Definition units_get (unit_name : string) : M (option UnitStats) :=
  fun w => (Ok (units w !! unit_name), w).

Definition units_set (unit_name : string) (stats : UnitStats) : M unit :=
  fun w => (Ok tt, {| units := <[unit_name := stats]> (units w);
                      filtered_units := filtered_units w;
                      trace := trace w ++ [UnitsSet unit_name stats] |}).

Definition units_pop (unit_name : string) : M unit :=
  fun w => (Ok tt, {| units := delete unit_name (units w);
                      filtered_units := filtered_units w;
                      trace := trace w ++ [UnitsPop unit_name] |}).

Definition scope_add (unit_name : string) : M unit :=
  fun w => (Ok tt, {| units := units w;
                      filtered_units := {[unit_name]} ∪ filtered_units w;
                      trace := trace w ++ [ScopeAdd unit_name] |}).

Definition scope_discard (unit_name : string) : M unit :=
  fun w => (Ok tt, {| units := units w;
                      filtered_units := filtered_units w ∖ {[unit_name]};
                      trace := trace w ++ [ScopeDiscard unit_name] |}).

Definition scope_mem (unit_name : string) : M bool :=
  fun w => (Ok (bool_decide (unit_name ∈ filtered_units w)), w).

Definition scope_list : M (list string) :=
  fun w => (Ok (elements (filtered_units w)), w).

(** [for x in xs: body(x)] *)
Fixpoint for_each {A : Type} (xs : list A) (body : A -> M unit) : M unit :=
  match xs with
  | [] => ret tt
  | x :: xs' => body x ;;; for_each xs' body
  end.

(** ** Floating-point time stamps *)

(** Multiplication of two Python floats (binary64, round to nearest even). *)
Definition float_mul : spec_float -> spec_float -> spec_float := SFmul 53 1024.

(** The float of the int [1_000_000_000], which is [8388608000000000 * 2^-23]. *)
Definition billion : spec_float := S754_finite false 8388608000000000 (-23).

(** [int(x)] for a float: truncation towards zero; infinities and NaN raise
    ([OverflowError] and [ValueError]). *)
Definition int_of_float (x : spec_float) : result Z :=
  match x with
  | S754_nan => Raise (Exception "cannot convert float NaN to integer")
  | S754_infinity _ => Raise (Exception "cannot convert float infinity to integer")
  | S754_zero _ => Ok 0
  | S754_finite s m e =>
      let magnitude := Z.shiftl (Z.pos m) e in
      Ok (if s then - magnitude else magnitude)
  end.

(** [int(stats.timestamp * 1_000_000_000)] *)
Definition timestamp_ns (t : spec_float) : result Z :=
  int_of_float (float_mul t billion).

Section Program.

Variable cfg : Config.
Variable env : Env.

(** ** The stats collector *)

Definition UNIT : string := "org.freedesktop.systemd1.Unit".
Definition SERVICE : string := "org.freedesktop.systemd1.Service".

Definition read_clock : M spec_float :=
  fun w => call CallTime (Ok (time_time env (List.length (trace w)))) w.

Definition fetch_str (unit_path interface property : string) : M string :=
  call (CallGet unit_path interface property)
       (Get_str env unit_path interface property).

Definition fetch_int (unit_path interface property : string) : M Z :=
  call (CallGet unit_path interface property)
       (Get_int env unit_path interface property).

(** The local variables that [get_unit_stats] initialises to defaults. *)
Record extended : Type := {
  x_main_pid : Z;
  x_restart_count : Z;
  x_memory_current : Z;
  x_cpu_usage_nsec : Z;
  x_unit_file_state : string
}.

Definition defaults : extended :=
  {| x_main_pid := 0; x_restart_count := 0; x_memory_current := 0;
     x_cpu_usage_nsec := 0; x_unit_file_state := "unknown" |}.

(** Lines 219-223, the head of the inner [try]: the two assignments of a
    [.service] unit.  An assignment that was reached stays when a later
    call raises; the exception, if any, is handed on with the locals. *)
Definition service_properties (unit_name unit_path : string) (x : extended)
  : M (extended * option exn) :=
  if Str.endswith unit_name ".service" then
    pid <- attempt (fetch_int unit_path SERVICE "MainPID") ;;
    match pid with
    | Raise e => ret (x, Some e)
    | Ok pid =>
        let x := {| x_main_pid := pid;
                    x_restart_count := x_restart_count x;
                    x_memory_current := x_memory_current x;
                    x_cpu_usage_nsec := x_cpu_usage_nsec x;
                    x_unit_file_state := x_unit_file_state x |} in
        n <- attempt (fetch_int unit_path SERVICE "NRestarts") ;;
        match n with
        | Raise e => ret (x, Some e)
        | Ok n =>
            ret ({| x_main_pid := x_main_pid x;
                    x_restart_count := n;
                    x_memory_current := x_memory_current x;
                    x_cpu_usage_nsec := x_cpu_usage_nsec x;
                    x_unit_file_state := x_unit_file_state x |}, None)
        end
    end
  else ret (x, None).

(** Lines 226-239, the rest of the inner [try]: three fetches, each under
    its own [contextlib.suppress(Exception)]. *)
Definition resource_properties (unit_path : string) (x : extended) : M extended :=
  mem <- attempt (fetch_int unit_path UNIT "MemoryCurrent") ;;
  let memory_current := match mem with Ok n => n | Raise _ => x_memory_current x end in
  cpu <- attempt (fetch_int unit_path UNIT "CPUUsageNSec") ;;
  let cpu_usage_nsec := match cpu with Ok n => n | Raise _ => x_cpu_usage_nsec x end in
  ufs <- attempt (fetch_str unit_path UNIT "UnitFileState") ;;
  let unit_file_state := match ufs with Ok s => s | Raise _ => x_unit_file_state x end in
  ret {| x_main_pid := x_main_pid x;
         x_restart_count := x_restart_count x;
         x_memory_current := memory_current;
         x_cpu_usage_nsec := cpu_usage_nsec;
         x_unit_file_state := unit_file_state |}.

(** Lines 212-242: the defaults, the inner [try] and its [except], which
    logs what the head of the [try] raised and goes on to build the
    snapshot. *)
Definition extended_properties (unit_name unit_path : string) : M extended :=
  head <- service_properties unit_name unit_path defaults ;;
  match head with
  | (x, Some e) =>
      log DEBUG ("Could not get extended properties for " ++ unit_name
                 ++ ": " ++ str_exn e) ;;;
      ret x
  | (x, None) => resource_properties unit_path x
  end.

(** [SystemdUnitMonitor.get_unit_stats] *)
Definition get_unit_stats (unit_name : string) : M (option UnitStats) :=
  try_except
    (unit_path <- call (CallGetUnit unit_name) (GetUnit env unit_name) ;;
     call (CallGetObject unit_path) (get_object env unit_path) ;;;
     active_state <- fetch_str unit_path UNIT "ActiveState" ;;
     sub_state <- fetch_str unit_path UNIT "SubState" ;;
     load_state <- fetch_str unit_path UNIT "LoadState" ;;
     x <- extended_properties unit_name unit_path ;;
     now <- read_clock ;;
     ret (Some {| name := unit_name;
                  active_state := active_state;
                  sub_state := sub_state;
                  load_state := load_state;
                  unit_file_state := x_unit_file_state x;
                  main_pid := x_main_pid x;
                  restart_count := x_restart_count x;
                  memory_current := x_memory_current x;
                  cpu_usage_nsec := x_cpu_usage_nsec x;
                  timestamp := now |}))
    (fun e =>
       log DEBUG ("Failed to get stats for " ++ unit_name ++ ": " ++ str_exn e) ;;;
       ret None).

(** ** The metric emitter *)

Definition quoted (s : string) : string := Str.dquote ++ s ++ Str.dquote.

(** Lines 264-289: the line, or what [int] raised. *)
Definition format_line (stats : UnitStats) : result string :=
  let tags :=
    [ "unit=" ++ quoted (name stats);
      "active_state=" ++ quoted (active_state stats);
      "sub_state=" ++ quoted (sub_state stats);
      "load_state=" ++ quoted (load_state stats);
      "unit_file_state=" ++ quoted (unit_file_state stats);
      "username=" ++ quoted (username cfg);
      "uid=" ++ quoted (Str.of_int (uid cfg)) ] in
  let tags_str := Str.join "," tags in
  let fields :=
    [ "main_pid=" ++ Str.of_int (main_pid stats) ++ "i";
      "restart_count=" ++ Str.of_int (restart_count stats) ++ "i";
      "memory_current=" ++ Str.of_int (memory_current stats) ++ "i";
      "cpu_usage_nsec=" ++ Str.of_int (cpu_usage_nsec stats) ++ "i" ] in
  let fields_str := Str.join "," fields in
  match timestamp_ns (timestamp stats) with
  | Raise e => Raise e
  | Ok ns =>
      Ok (measurement cfg ++ "," ++ tags_str ++ " " ++ fields_str ++ " "
          ++ Str.of_int ns ++ Str.newline)
  end.

(** [SystemdUnitMonitor.send_to_telegraf] *)
Definition send_to_telegraf (stats : UnitStats) : M unit :=
  try_except
    (line <- (fun w => (format_line stats, w)) ;;
     call SocketOpen (socket_socket env) ;;;
     try_finally
       (try_except
          (call (SocketConnect (telegraf_socket_path cfg))
                (sock_connect env (telegraf_socket_path cfg)) ;;;
           call (SocketSend line) (sock_send env line) ;;;
           log DEBUG ("Sent stats for " ++ name stats))
          (fun e =>
             log WARNING ("Failed to send to Telegraf socket: " ++ str_exn e)))
       (call SocketClose (sock_close env)))
    (fun e =>
       log ERROR ("Error formatting/sending stats for " ++ name stats
                  ++ ": " ++ str_exn e)).

(** ** The reconciler *)

Definition should_monitor (unit_name : string) : bool :=
  _should_monitor_unit (include_patterns cfg) (exclude_patterns cfg) unit_name.

(** [SystemdUnitMonitor.collect_and_send_unit_stats] *)
Definition collect_and_send_unit_stats (unit_name : string) : M unit :=
  stats <- get_unit_stats unit_name ;;
  match stats with
  | Some stats =>
      old_stats <- units_get unit_name ;;
      units_set unit_name stats ;;;
      match old_stats with
      | Some old_stats =>
          if negb (String.eqb (active_state old_stats) (active_state stats))
          then log INFO ("Unit " ++ unit_name ++ " state changed: "
                         ++ active_state old_stats ++ " -> " ++ active_state stats)
          else ret tt
      | None => ret tt
      end ;;;
      send_to_telegraf stats
  | None => ret tt
  end.

(** [SystemdUnitMonitor.get_all_units] *)
Definition get_all_units : M (list string) :=
  try_except
    (all <- call CallListUnits (ListUnits env) ;;
     let unit_names := List.filter should_monitor all in
     for_each unit_names scope_add ;;;
     log INFO ("Found " ++ Str.of_int (Z.of_nat (List.length unit_names))
               ++ " units to monitor") ;;;
     ret unit_names)
    (fun e =>
       log ERROR ("Failed to get unit list: " ++ str_exn e) ;;;
       ret []).

(** [SystemdUnitMonitor.on_unit_new] *)
Definition on_unit_new (unit_name unit_path : string) : M unit :=
  if should_monitor unit_name then
    log INFO ("New unit detected: " ++ unit_name) ;;;
    scope_add unit_name ;;;
    collect_and_send_unit_stats unit_name
  else ret tt.

(** [SystemdUnitMonitor.on_unit_removed] *)
Definition on_unit_removed (unit_name unit_path : string) : M unit :=
  tracked <- scope_mem unit_name ;;
  if tracked then
    log INFO ("Unit removed: " ++ unit_name) ;;;
    scope_discard unit_name ;;;
    units_pop unit_name
  else ret tt.

(** [SystemdUnitMonitor.on_properties_changed] *)
Definition on_properties_changed (interface : string) : M unit :=
  if String.eqb interface "org.freedesktop.systemd1.Unit" then ret tt else ret tt.

(** [SystemdUnitMonitor.poll_units] *)
Definition poll_units : M unit :=
  unit_names <- scope_list ;;
  for_each unit_names collect_and_send_unit_stats.

(** The part of [SystemdUnitMonitor.run] between the connection to
    systemd and the main loop: the initial discovery and the first
    collection. *)
Definition initial_discovery : M unit :=
  initial_units <- get_all_units ;;
  log INFO "Collecting initial unit statistics" ;;;
  for_each initial_units collect_and_send_unit_stats.

End Program.

(** ** Reading a run *)

(** The monitor after the events [evs], its containers untouched. *)
Definition push (evs : list event) (w : Monitor) : Monitor :=
  {| units := units w;
     filtered_units := filtered_units w;
     trace := trace w ++ evs |}.

(** The events that took the monitor from [w] to [w']. *)
Definition new_events (w w' : Monitor) : list event :=
  drop (List.length (trace w)) (trace w').

Definition value_or {A : Type} (default : A) (r : result A) : A :=
  match r with
  | Ok v => v
  | Raise _ => default
  end.

Definition is_ok {A : Type} (r : result A) : bool :=
  match r with
  | Ok _ => true
  | Raise _ => false
  end.

Definition is_open (ev : event) : bool :=
  match ev with SocketOpen => true | _ => false end.
Definition is_connect (ev : event) : bool :=
  match ev with SocketConnect _ => true | _ => false end.
Definition is_send (ev : event) : bool :=
  match ev with SocketSend _ => true | _ => false end.
Definition is_close (ev : event) : bool :=
  match ev with SocketClose => true | _ => false end.
Definition is_socket (ev : event) : bool :=
  is_open ev || is_connect ev || is_send ev || is_close ev.
Definition is_warning (ev : event) : bool :=
  match ev with Log WARNING _ => true | _ => false end.
Definition is_store (ev : event) : bool :=
  match ev with UnitsSet _ _ => true | _ => false end.
Definition is_info (ev : event) : bool :=
  match ev with Log INFO _ => true | _ => false end.

Definition count (p : event -> bool) (evs : list event) : nat :=
  List.length (List.filter p evs).

(** The payloads handed to [sock.send], in order. *)
Definition sent (evs : list event) : list string :=
  flat_map (fun ev => match ev with SocketSend data => [data] | _ => [] end) evs.

(** The position of the first event that satisfies [p]. *)
Fixpoint first_index (p : event -> bool) (evs : list event) : option nat :=
  match evs with
  | [] => None
  | ev :: evs' =>
      if p ev then Some O
      else match first_index p evs' with
           | Some i => Some (S i)
           | None => None
           end
  end.

(** Every key of the state store is in the scope set. *)
Definition store_in_scope (w : Monitor) : Prop :=
  dom (units w) ⊆ filtered_units w.

(** Every stored snapshot is the snapshot of its key. *)
Definition store_named (w : Monitor) : Prop :=
  forall (k : string) (st : UnitStats), units w !! k = Some st -> name st = k.

(** The line [line] is what the emitter makes of a snapshot of [unit_name]. *)
Definition line_of (cfg : Config) (unit_name line : string) : Prop :=
  exists st : UnitStats, name st = unit_name /\ format_line cfg st = Ok line.

(** The events that name a unit name it as [unit_name]; the lines sent are
    lines of [unit_name]. *)
Definition concerns (cfg : Config) (unit_name : string) (ev : event) : Prop :=
  match ev with
  | CallGetUnit n => n = unit_name
  | UnitsSet n st => n = unit_name /\ name st = unit_name
  | UnitsPop n => n = unit_name
  | ScopeAdd n => n = unit_name
  | ScopeDiscard n => n = unit_name
  | SocketSend line => line_of cfg unit_name line
  | _ => True
  end.

(** The transition line of [collect_and_send_unit_stats]. *)
Definition transition_line (unit_name old new : string) : string :=
  "Unit " ++ unit_name ++ " state changed: " ++ old ++ " -> " ++ new.

(** The signals and the timer that drive the main loop. *)
Inductive signal : Type :=
| UnitNew (unit_name unit_path : string)
| UnitRemoved (unit_name unit_path : string)
| PropertiesChanged (interface : string)
| PollTick.

(** What the main loop runs when [sig] arrives and the world answers as
    [env]. *)
Definition dispatch (cfg : Config) (env : Env) (sig : signal) : M unit :=
  match sig with
  | UnitNew unit_name unit_path => on_unit_new cfg env unit_name unit_path
  | UnitRemoved unit_name unit_path => on_unit_removed unit_name unit_path
  | PropertiesChanged interface => on_properties_changed interface
  | PollTick => poll_units cfg env
  end.

(** The monitor after [__init__]. *)
Definition fresh : Monitor :=
  {| units := ∅; filtered_units := ∅; trace := [] |}.

(** The monitor after a finite run: the initial discovery, then the
    signals one after the other, each with the answers of its moment. *)
Fixpoint after_signals (cfg : Config) (sigs : list (Env * signal)) (w : Monitor)
  : Monitor :=
  match sigs with
  | [] => w
  | (env, sig) :: sigs' => after_signals cfg sigs' (snd (dispatch cfg env sig w))
  end.

Definition after_run (cfg : Config) (env0 : Env) (sigs : list (Env * signal))
  : Monitor :=
  after_signals cfg sigs (snd (initial_discovery cfg env0 fresh)).

(** The events of one emission: what [send_to_telegraf] does for [stats]
    when the world answers as [env]. *)
Definition send_events (cfg : Config) (env : Env) (stats : UnitStats) : list event :=
  let failed (e : exn) :=
    Log ERROR ("Error formatting/sending stats for " ++ name stats ++ ": " ++ str_exn e) in
  let dropped (e : exn) :=
    Log WARNING ("Failed to send to Telegraf socket: " ++ str_exn e) in
  match format_line cfg stats with
  | Raise e => [failed e]
  | Ok line =>
      SocketOpen ::
      match socket_socket env with
      | Raise e => [failed e]
      | Ok _ =>
          SocketConnect (telegraf_socket_path cfg) ::
          match sock_connect env (telegraf_socket_path cfg) with
          | Raise e => [dropped e]
          | Ok _ =>
              SocketSend line ::
              match sock_send env line with
              | Raise e => [dropped e]
              | Ok _ => [Log DEBUG ("Sent stats for " ++ name stats)]
              end
          end
          ++ SocketClose ::
             match sock_close env with
             | Raise e => [failed e]
             | Ok _ => []
             end
      end
  end.

(** The monitor after [self.units[unit_name] = stats], the trace apart. *)
Definition store (unit_name : string) (stats : UnitStats) (w : Monitor) : Monitor :=
  {| units := <[unit_name := stats]> (units w);
     filtered_units := filtered_units w;
     trace := trace w |}.

(** The transition line, when the stored snapshot [old] has another
    [active_state] than the new one. *)
Definition transition_events
  (unit_name : string) (old : option UnitStats) (stats : UnitStats) : list event :=
  match old with
  | Some old_stats =>
      if String.eqb (active_state old_stats) (active_state stats) then []
      else [Log INFO (transition_line unit_name (active_state old_stats)
                        (active_state stats))]
  | None => []
  end.

(** The two properties that the reconciler keeps. *)
Definition consistent (w : Monitor) : Prop :=
  store_in_scope w /\ store_named w.

(** ** Scenarios of the test suite *)

Module Scenario.

Definition cfg0 : Config :=
  {| measurement := "systemd_units";
     telegraf_socket_path := "/run/telegraf/telegraf.sock";
     include_patterns := [];
     exclude_patterns := [];
     username := "testuser";
     uid := 1000 |}.

(** [timestamp=1639123456.789] and [timestamp=1639123456.0] *)
Definition t0 : spec_float := S754_finite false 6874982071303930 (-22).
Definition t1 : spec_float := S754_finite false 6874982067994624 (-22).

Definition nginx (t : spec_float) : UnitStats :=
  {| name := "nginx.service";
     active_state := "active";
     sub_state := "running";
     load_state := "loaded";
     unit_file_state := "enabled";
     main_pid := 1234;
     restart_count := 0;
     memory_current := 52428800;
     cpu_usage_nsec := 1234567890;
     timestamp := t |}.

(** What a collection on [env_ok] below finds for [nginx.service]. *)
Definition nginx_collected : UnitStats :=
  {| name := "nginx.service";
     active_state := "active";
     sub_state := "running";
     load_state := "loaded";
     unit_file_state := "enabled";
     main_pid := 1234;
     restart_count := 2;
     memory_current := 52428800;
     cpu_usage_nsec := 1234567890;
     timestamp := t1 |}.

Definition refused : exn := Exception "Connection refused".
Definition broken_pipe : exn := Exception "Broken pipe".
Definition no_such_unit : exn := Exception "Unit not found".
Definition no_property : exn := Exception "Unknown property".

Definition strings (interface property : string) : result string :=
  if String.eqb property "ActiveState" then Ok "active"
  else if String.eqb property "SubState" then Ok "running"
  else if String.eqb property "LoadState" then Ok "loaded"
  else if String.eqb property "UnitFileState" then Ok "enabled"
  else Ok "unknown".

Definition ints (interface property : string) : result Z :=
  if String.eqb property "MainPID" then Ok 1234
  else if String.eqb property "NRestarts" then Ok 2
  else if String.eqb property "MemoryCurrent" then Ok 52428800
  else if String.eqb property "CPUUsageNSec" then Ok 1234567890
  else Raise (Exception "invalid literal for int() with base 10: 'unknown'").

(** A bus with [get_int] for the integer properties and a socket that
    answers [connect] and [send] as given. *)
Definition world (get_str : string -> string -> result string)
                 (get_int : string -> string -> result Z)
                 (connect send : result unit) : Env :=
  {| ListUnits := Ok ["nginx.service"; "user.mount"; "backup.timer"];
     GetUnit := fun unit_name => Ok ("/org/freedesktop/systemd1/unit/" ++ unit_name);
     get_object := fun _ => Ok tt;
     Get_str := fun _ => get_str;
     Get_int := fun _ => get_int;
     time_time := fun _ => t1;
     socket_socket := Ok tt;
     sock_connect := fun _ => connect;
     sock_send := fun _ => send;
     sock_close := Ok tt |}.

Definition env_ok : Env := world strings ints (Ok tt) (Ok tt).
Definition env_refused : Env := world strings ints (Raise refused) (Ok tt).
Definition env_broken_pipe : Env := world strings ints (Ok tt) (Raise broken_pipe).

(** A bus on which [MainPID] cannot be read. *)
Definition env_no_main_pid : Env :=
  world strings
        (fun interface property =>
           if String.eqb property "MainPID" then Raise no_property
           else ints interface property)
        (Ok tt) (Ok tt).

(** A bus on which [NRestarts] cannot be read. *)
Definition env_no_restarts : Env :=
  world strings
        (fun interface property =>
           if String.eqb property "NRestarts" then Raise no_property
           else ints interface property)
        (Ok tt) (Ok tt).

(** A bus on which [MemoryCurrent] cannot be read. *)
Definition env_no_memory : Env :=
  world strings
        (fun interface property =>
           if String.eqb property "MemoryCurrent" then Raise no_property
           else ints interface property)
        (Ok tt) (Ok tt).

(** A bus on which [SubState] cannot be read. *)
Definition env_no_sub_state : Env :=
  world (fun interface property =>
           if String.eqb property "SubState" then Raise no_property
           else strings interface property)
        ints (Ok tt) (Ok tt).

(** A bus that does not know the unit. *)
Definition env_no_unit : Env :=
  {| ListUnits := Ok [];
     GetUnit := fun _ => Raise no_such_unit;
     get_object := fun _ => Ok tt;
     Get_str := fun _ => strings;
     Get_int := fun _ => ints;
     time_time := fun _ => t1;
     socket_socket := Ok tt;
     sock_connect := fun _ => Ok tt;
     sock_send := fun _ => Ok tt;
     sock_close := Ok tt |}.

(** The monitor of [test_collect_and_send_unit_stats_state_change], with
    the unit in scope. *)
Definition test_service_old : UnitStats :=
  {| name := "test.service";
     active_state := "inactive";
     sub_state := "dead";
     load_state := "loaded";
     unit_file_state := "enabled";
     main_pid := 0;
     restart_count := 0;
     memory_current := 0;
     cpu_usage_nsec := 0;
     timestamp := t1 |}.

(** What a collection on [env_ok] below finds for it. *)
Definition test_service_new : UnitStats :=
  {| name := "test.service";
     active_state := "active";
     sub_state := "running";
     load_state := "loaded";
     unit_file_state := "enabled";
     main_pid := 1234;
     restart_count := 2;
     memory_current := 52428800;
     cpu_usage_nsec := 1234567890;
     timestamp := t1 |}.

Definition tracking_test_service : Monitor :=
  {| units := {[ "test.service" := test_service_old ]};
     filtered_units := {[ "test.service" ]};
     trace := [] |}.

End Scenario.

(** ** Filter lists of the configuration *)

Module Cfg.

(** [c.isspace()], the white space that [str.strip()] removes, for a
    character below U+0100: tab, line feed, vertical tab, form feed,
    carriage return (9 to 13), the four separators 28 to 31, space (32),
    next line (U+0085) and no-break space (U+00A0). *)
Definition is_space (c : ascii) : bool :=
  let n := nat_of_ascii c in
  ((9 <=? n)%nat && (n <=? 13)%nat) || ((28 <=? n)%nat && (n <=? 32)%nat)
  || (n =? 133)%nat || (n =? 160)%nat.

(** [s.lstrip()], [s.rstrip()] and [s.strip()] *)
Fixpoint lstrip (s : string) : string :=
  match s with
  | EmptyString => EmptyString
  | String c s' => if is_space c then lstrip s' else s
  end.

Fixpoint rstrip (s : string) : string :=
  match s with
  | EmptyString => EmptyString
  | String c s' =>
      match rstrip s' with
      | EmptyString => if is_space c then EmptyString else String c EmptyString
      | String d t => String c (String d t)
      end
  end.

Definition strip (s : string) : string := rstrip (lstrip s).

(** [s.split(sep)] for a one-character separator: never the empty list. *)
Fixpoint split (sep : ascii) (s : string) : list string :=
  match s with
  | EmptyString => [EmptyString]
  | String c s' =>
      if Ascii.eqb c sep then EmptyString :: split sep s'
      else match split sep s' with
           | token :: tokens => String c token :: tokens
           | [] => [String c EmptyString]
           end
  end.

(** Truth value of a Python string: false exactly for the empty string. *)
Definition nonempty (s : string) : bool :=
  match s with
  | EmptyString => false
  | String _ _ => true
  end.

(** [SystemdUnitMonitor._parse_filter_list] *)
Definition _parse_filter_list (filter_str : string) : list string :=
  if negb (nonempty (strip filter_str)) then []
  else map strip
         (List.filter (fun pattern => nonempty (strip pattern))
            (split "," filter_str)).

(** A pattern as [_parse_filter_list] hands it out: not empty, no white
    space at either end, no comma. *)
Definition clean (pattern : string) : Prop :=
  pattern <> EmptyString /\ strip pattern = pattern /\ Str.mem "," pattern = false.

(** A string that does not begin with white space. *)
Definition headed (s : string) : Prop :=
  match s with
  | EmptyString => True
  | String c _ => is_space c = false
  end.

(** A string of white space only. *)
Definition blank (s : string) : Prop := strip s = EmptyString.

(** A pattern between white space, as a configuration file may have it. *)
Definition padded (entry : string * string * string) : string :=
  match entry with (before, pattern, after) => before ++ pattern ++ after end.

Definition pattern_of (entry : string * string * string) : string :=
  match entry with (_, pattern, _) => pattern end.

End Cfg.

(** ** Reading a trace, continued *)

(** The units whose collection is started, in order. *)
Definition collections (evs : list event) : list string :=
  flat_map (fun ev => match ev with CallGetUnit n => [n] | _ => [] end) evs.

Definition is_bus_call (ev : event) : bool :=
  match ev with
  | CallListUnits | CallGetUnit _ | CallGetObject _ | CallGet _ _ _ => true
  | _ => false
  end.

Definition is_log (ev : event) : bool :=
  match ev with Log _ _ => true | _ => false end.

Definition is_clock (ev : event) : bool :=
  match ev with CallTime => true | _ => false end.

(** A pattern without any of the three special characters. *)
Definition plain (pattern : string) : bool :=
  negb (Str.mem "*" pattern) && negb (Str.mem "?" pattern) && negb (Str.mem "[" pattern).

(** The items of a plain pattern: its characters, each for itself. *)
Fixpoint literal_items (pattern : string) : list Fnmatch.item :=
  match pattern with
  | EmptyString => []
  | String c pattern' => Fnmatch.Lit c :: literal_items pattern'
  end.

(** [name.startswith(prefix)] *)
Fixpoint startswith (name prefix : string) {struct prefix} : bool :=
  match prefix with
  | EmptyString => true
  | String c prefix' =>
      match name with
      | String d name' => Ascii.eqb c d && startswith name' prefix'
      | EmptyString => false
      end
  end.

(** Every unit of the scope set passes the filter. *)
Definition scope_filtered (cfg : Config) (w : Monitor) : Prop :=
  forall k : string, k ∈ filtered_units w -> should_monitor cfg k = true.

(** * Properties *)

(** ** The cases of the test suite *)

Example test_include_patterns :
  map (_should_monitor_unit ["*.service"; "*.timer"] [])
      ["nginx.service"; "backup.timer"; "user.mount"; "proc.target"]
  = [true; true; false; false].
Proof. reflexivity. Qed.

Example test_exclude_patterns :
  map (_should_monitor_unit [] ["*.mount"; "*.swap"; "tmp-*"])
      ["nginx.service"; "user.mount"; "swap.swap"; "tmp-1234.service"; "backup.timer"]
  = [true; false; false; false; true].
Proof. reflexivity. Qed.

Example test_complex_patterns :
  map (_should_monitor_unit ["nginx-*"; "*backup*"; "app?.service"] ["*-test*"])
      ["nginx-worker.service"; "daily-backup.timer"; "app1.service";
       "nginx-test.service"; "backup-test.timer"; "redis.service"]
  = [true; true; true; false; false; false].
Proof. reflexivity. Qed.

Example test_case_sensitivity :
  _should_monitor_unit ["*.Service"] [] "nginx.service" = false /\
  _should_monitor_unit ["*.Service"] [] "nginx.Service" = true.
Proof. split; reflexivity. Qed.

Example test_single_character :
  Fnmatch.fnmatch "app1.service" "app?.service" = true /\
  Fnmatch.fnmatch "app10.service" "app?.service" = false.
Proof. split; reflexivity. Qed.

Example test_character_classes :
  map (fun '(name, pat) => Fnmatch.fnmatch name pat)
      [("app1", "app[0-9]"); ("appx", "app[0-9]"); ("appx", "app[!0-9]");
       ("a-", "a[a-]"); ("ab", "a[b-a]"); ("ab", "a[!b-a]"); ("a[", "a["); ("a]", "a[]]");
       ("ac", "a[a-cx-z]"); ("ay", "a[a-cx-z]"); ("ad", "a[a-cx-z]")]
  = [true; false; true; true; false; true; true; true; true; true; false].
Proof. reflexivity. Qed.

(** The float [1639123456.789] of the test suite. *)
Example test_timestamp_ns :
  timestamp_ns (S754_finite false 6874982071303930 (-22)) = Ok 1639123456788999936.
Proof. reflexivity. Qed.

(** ** The filter engine *)

Section FilterFacts.

Implicit Types (u p : string) (I E : list string).

Lemma any_match_intro u E p :
  In p E -> Fnmatch.fnmatch u p = true -> any_match u E = true.
Proof.
  intros Hin Hp. unfold any_match. apply existsb_exists. eauto.
Qed.

Lemma truthy_of_In {A : Type} (x : A) (l : list A) : In x l -> truthy l = true.
Proof. destruct l; [intros [] | reflexivity]. Qed.

Lemma excluded_is_rejected u I E :
  any_match u E = true -> _should_monitor_unit I E u = false.
Proof.
  intros HE. unfold _should_monitor_unit.
  destruct (truthy I && negb (any_match u I)); [reflexivity |].
  rewrite HE. destruct E as [| p E']; [discriminate HE | reflexivity].
Qed.

(** A star at the head of the items lets any prefix of the name go. *)
Lemma glob_match_star_skip items (stem name : string) :
  Fnmatch.glob_match items name = true ->
  Fnmatch.glob_match (Fnmatch.Star :: items) (stem ++ name) = true.
Proof.
  intros Hrest. induction stem as [| c stem IH].
  - destruct name; simpl; simpl in Hrest; rewrite Hrest; reflexivity.
  - simpl. simpl in IH. rewrite IH. apply orb_true_r.
Qed.

Lemma mount_pattern stem : Fnmatch.fnmatch (stem ++ ".mount") "*.mount" = true.
Proof.
  unfold Fnmatch.fnmatch.
  change (Fnmatch.translate "*.mount")
    with (Fnmatch.Star :: Fnmatch.translate ".mount").
  apply glob_match_star_skip. reflexivity.
Qed.

Lemma no_filters_accept_all u : _should_monitor_unit [] [] u = true.
Proof. reflexivity. Qed.

End FilterFacts.

(** C3.  Exclude wins over include: a unit name that matches some pattern
    of a (then non-empty) exclude list is rejected, whatever the include
    list is; and with include [*] and exclude [*.mount] every name that
    ends in [.mount] is rejected. *)
Theorem exclude_always_wins (u p : string) (I E : list string) :
  E <> [] -> In p E -> Fnmatch.fnmatch u p = true ->
  _should_monitor_unit I E u = false /\
  (forall stem : string,
      _should_monitor_unit ["*"] ["*.mount"] (stem ++ ".mount") = false).
Proof.
  intros _ Hin Hp. split.
  - apply excluded_is_rejected. exact (any_match_intro u E p Hin Hp).
  - intros stem. apply excluded_is_rejected.
    apply (any_match_intro _ _ "*.mount"); [left; reflexivity | apply mount_pattern].
Qed.

Lemma exclude_always_wins_witness :
  _should_monitor_unit ["*"] ["*.mount"] "user.mount" = false /\
  _should_monitor_unit ["*"] ["*.mount"] "nginx.service" = true.
Proof.
  split; [| reflexivity].
  refine (proj1 (exclude_always_wins "user.mount" "*.mount" ["*"] ["*.mount"] _ _ _)).
  - discriminate.
  - simpl; left; reflexivity.
  - reflexivity.
Defined.

(** C4, as the code has it.  The empty name gets no treatment of its own.
    With both pattern lists empty every name is accepted, the empty one
    too; the empty name is rejected exactly when the include list is not
    empty and none of its patterns matches the empty name, or some exclude
    pattern matches it. *)
Theorem empty_name_is_filtered_like_any_other :
  (forall u : string, _should_monitor_unit [] [] u = true) /\
  (forall I E : list string,
      _should_monitor_unit I E "" = false <->
      (I <> [] /\ any_match "" I = false) \/ any_match "" E = true) /\
  _should_monitor_unit ["*.service"] [] "" = false.
Proof.
  split; [exact no_filters_accept_all |]. split; [| reflexivity].
  intros I E. unfold _should_monitor_unit.
  destruct I as [| i I']; destruct E as [| e E']; simpl truthy;
    change (any_match "" []) with false;
    repeat match goal with
      | |- context [any_match ?n (?x :: ?l)] =>
          destruct (any_match n (x :: l)) eqn:?
      end;
    cbn; intuition (congruence || discriminate).
Qed.

(** C4 as stated fails: with no patterns at all the empty name is
    accepted, and so it is under the include pattern [*]. *)
Lemma empty_name_accepted :
  _should_monitor_unit [] [] "" = true /\
  _should_monitor_unit ["*"] [] "" = true.
Proof. split; reflexivity. Qed.

(** ** Runs and traces *)

Section RunFacts.


Lemma push_nil w : push [] w = w.
Proof. destruct w; unfold push; simpl. now rewrite app_nil_r. Qed.

Lemma push_push a b w : push b (push a w) = push (a ++ b) w.
Proof. unfold push; simpl. now rewrite <- app_assoc. Qed.

Lemma new_events_push w evs : new_events w (push evs w) = evs.
Proof. unfold new_events, push; simpl. apply drop_app_length. Qed.

Lemma new_events_push_push w a b : new_events (push a w) (push (a ++ b) w) = b.
Proof. rewrite <- push_push. apply new_events_push. Qed.

Lemma record_run ev w : record ev w = (Ok tt, push [ev] w).
Proof. reflexivity. Qed.

Lemma call_run {A : Type} ev (answer : result A) w :
  call ev answer w = (answer, push [ev] w).
Proof. reflexivity. Qed.

Lemma log_run lvl message w : log lvl message w = (Ok tt, push [Log lvl message] w).
Proof. reflexivity. Qed.

End RunFacts.

(** ** The metric emitter *)

Ltac unfold_m :=
  unfold try_except, try_finally, attempt, bind, ret, call, log, record.

Lemma send_to_telegraf_run cfg env stats w :
  send_to_telegraf cfg env stats w = (Ok tt, push (send_events cfg env stats) w).
Proof.
  unfold send_to_telegraf, send_events. unfold_m.
  destruct (format_line cfg stats) as [line | e]; [| reflexivity].
  destruct (socket_socket env) as [[] | e]; [| unfold push; simpl; now rewrite <- app_assoc].
  destruct (sock_connect env (telegraf_socket_path cfg)) as [[] | e1];
    [destruct (sock_send env line) as [[] | e2] |];
    destruct (sock_close env) as [[] | e3];
    unfold push; simpl; rewrite <- ?app_assoc; reflexivity.
Qed.




(** C8.  The emitter never raises.  Whatever the socket does, the call
    returns normally and leaves the state store and the scope set alone;
    it opens, connects and sends at most once (no retry, nothing queued);
    the socket is closed exactly once when it was opened and never
    otherwise; and when the socket was opened and [connect] or [send]
    raised, exactly one warning is logged and the success line is not. *)
Theorem emission_never_raises
  (cfg : Config) (env : Env) (stats : UnitStats) (w : Monitor) :
  let out := send_to_telegraf cfg env stats w in
  let evs := new_events w (snd out) in
  let path := telegraf_socket_path cfg in
  fst out = Ok tt /\
  units (snd out) = units w /\
  filtered_units (snd out) = filtered_units w /\
  (count is_open evs <= 1)%nat /\
  (count is_connect evs <= 1)%nat /\
  (count is_send evs <= 1)%nat /\
  count is_close evs =
    (if is_ok (format_line cfg stats) && is_ok (socket_socket env) then 1%nat else 0%nat) /\
  (forall line : string,
      format_line cfg stats = Ok line ->
      socket_socket env = Ok tt ->
      is_ok (sock_connect env path) && is_ok (sock_send env line) = false ->
      count is_warning evs = 1%nat /\
      count is_close evs = 1%nat /\
      count is_connect evs = 1%nat /\
      ~ In (Log DEBUG ("Sent stats for " ++ name stats)) evs /\
      (is_ok (sock_connect env path) = false -> sent evs = [])).
Proof.
  intros out evs path. subst out evs path.
  rewrite send_to_telegraf_run. cbn [fst snd]. rewrite new_events_push.
  unfold send_events.
  do 3 (split; [reflexivity |]).
  unfold send_events.
  do 4 (split;
        [destruct (format_line cfg stats) as [line | e0];
         [destruct (socket_socket env) as [[] | e];
          [destruct (sock_connect env (telegraf_socket_path cfg)) as [[] | e1];
           [destruct (sock_send env line) as [[] | e2] |];
           destruct (sock_close env) as [[] | e3] |] |];
         cbn; solve [reflexivity | lia] |]).
  intros line Hline Hopen Hfail. rewrite Hline, Hopen.
  destruct (sock_connect env (telegraf_socket_path cfg)) as [[] | e1];
    [destruct (sock_send env line) as [[] | e2]; [discriminate Hfail |] |];
    destruct (sock_close env) as [[] | e3]; cbn;
    (repeat split; try reflexivity; try discriminate;
     intuition discriminate).
Qed.

Lemma emission_never_raises_witness :
  count is_warning
    (new_events fresh (snd (send_to_telegraf Scenario.cfg0 Scenario.env_refused
                              (Scenario.nginx Scenario.t0) fresh))) = 1%nat /\
  count is_close
    (new_events fresh (snd (send_to_telegraf Scenario.cfg0 Scenario.env_broken_pipe
                              (Scenario.nginx Scenario.t0) fresh))) = 1%nat.
Proof.
  split.
  - refine (proj1 (proj2 (proj2 (proj2 (proj2 (proj2 (proj2 (proj2
      (emission_never_raises Scenario.cfg0 Scenario.env_refused
         (Scenario.nginx Scenario.t0) fresh))))))) _ eq_refl eq_refl eq_refl)).
  - refine (proj1 (proj2 (proj2 (proj2 (proj2 (proj2 (proj2 (proj2 (proj2
      (emission_never_raises Scenario.cfg0 Scenario.env_broken_pipe
         (Scenario.nginx Scenario.t0) fresh))))))) _ eq_refl eq_refl eq_refl))).
Defined.

(** ** The stats collector *)

(** One step of a run: the next answer of the world is split into its two
    cases, and the run is computed up to the answer after it. *)
Ltac case_answer :=
  match goal with
  | |- context [match ?x with Ok _ => _ | Raise _ => _ end] =>
      lazymatch x with
      | context [match _ with Ok _ => _ | Raise _ => _ end] => fail
      | _ => destruct x eqn:?
      end
  | |- context [if Str.endswith ?u ?suffix then _ else _] =>
      destruct (Str.endswith u suffix) eqn:?
  end.

Ltac run_collector :=
  unfold get_unit_stats, extended_properties, service_properties,
    resource_properties, fetch_str, fetch_int, read_clock;
  unfold_m; cbn;
  repeat (case_answer; simplify_eq; cbn).

Ltac tidy_trace :=
  unfold new_events, push; cbn [trace units filtered_units fst snd];
  rewrite <- ?app_assoc; rewrite ?drop_app_length; cbn [app].

(** The three resource properties are always fetched, one after the
    other, whatever each fetch answers. *)
Lemma resource_properties_run env unit_path x w :
  resource_properties env unit_path x w =
    (Ok {| x_main_pid := x_main_pid x;
           x_restart_count := x_restart_count x;
           x_memory_current :=
             value_or (x_memory_current x) (Get_int env unit_path UNIT "MemoryCurrent");
           x_cpu_usage_nsec :=
             value_or (x_cpu_usage_nsec x) (Get_int env unit_path UNIT "CPUUsageNSec");
           x_unit_file_state :=
             value_or (x_unit_file_state x) (Get_str env unit_path UNIT "UnitFileState") |},
     push [CallGet unit_path UNIT "MemoryCurrent";
           CallGet unit_path UNIT "CPUUsageNSec";
           CallGet unit_path UNIT "UnitFileState"] w).
Proof.
  unfold resource_properties, fetch_str, fetch_int. unfold_m. cbn.
  unfold push; cbn. rewrite <- !app_assoc. cbn.
  destruct (Get_int env unit_path UNIT "MemoryCurrent"),
    (Get_int env unit_path UNIT "CPUUsageNSec"),
    (Get_str env unit_path UNIT "UnitFileState"); reflexivity.
Qed.

(** What every collection has in common: it returns normally, touches
    neither container, records only calls about its unit, and names the
    snapshot after the unit. *)
Lemma get_unit_stats_frame cfg env u w :
  exists (r : option UnitStats) (evs : list event),
    get_unit_stats env u w = (Ok r, push evs w) /\
    Forall (concerns cfg u) evs /\
    List.filter is_socket evs = [] /\
    List.filter is_store evs = [] /\
    (forall st, r = Some st -> name st = u).
Proof.
  run_collector.
  all: eexists; eexists; split;
    [unfold push; cbn; rewrite <- ?app_assoc; cbn; reflexivity |].
  all: split; [repeat constructor |].
  all: split; [reflexivity |]; split; [reflexivity |].
  all: intros st Hst; simplify_eq; reflexivity.
Qed.

(** C2.  A collection is all or nothing.  [get_unit_stats] never raises
    and never touches the containers.  It answers [None] as soon as the
    unit handle cannot be resolved or one of [ActiveState], [SubState],
    [LoadState] cannot be fetched; it answers a snapshot exactly when all
    of them succeed, and that snapshot carries the unit name and the three
    values the bus gave. *)
Theorem snapshot_is_all_or_nothing (env : Env) (u : string) (w : Monitor) :
  let out := get_unit_stats env u w in
  (exists r : option UnitStats, fst out = Ok r) /\
  units (snd out) = units w /\
  filtered_units (snd out) = filtered_units w /\
  (forall e : exn, GetUnit env u = Raise e -> fst out = Ok None) /\
  (forall (p : string) (e : exn),
      GetUnit env u = Ok p ->
      get_object env p = Raise e \/
      Get_str env p UNIT "ActiveState" = Raise e \/
      Get_str env p UNIT "SubState" = Raise e \/
      Get_str env p UNIT "LoadState" = Raise e ->
      fst out = Ok None) /\
  (forall st : UnitStats,
      fst out = Ok (Some st) ->
      name st = u /\
      exists p : string,
        GetUnit env u = Ok p /\
        get_object env p = Ok tt /\
        Get_str env p UNIT "ActiveState" = Ok (active_state st) /\
        Get_str env p UNIT "SubState" = Ok (sub_state st) /\
        Get_str env p UNIT "LoadState" = Ok (load_state st)) /\
  (forall p a s l : string,
      GetUnit env u = Ok p ->
      get_object env p = Ok tt ->
      Get_str env p UNIT "ActiveState" = Ok a ->
      Get_str env p UNIT "SubState" = Ok s ->
      Get_str env p UNIT "LoadState" = Ok l ->
      exists st : UnitStats,
        fst out = Ok (Some st) /\ name st = u /\
        active_state st = a /\ sub_state st = s /\ load_state st = l).
Proof.
  intros out. subst out.
  split; [| split; [| split; [| split; [| split; [| split]]]]].
  - destruct (get_unit_stats_frame Scenario.cfg0 env u w) as (r & evs & -> & _).
    eauto.
  - destruct (get_unit_stats_frame Scenario.cfg0 env u w) as (r & evs & -> & _).
    reflexivity.
  - destruct (get_unit_stats_frame Scenario.cfg0 env u w) as (r & evs & -> & _).
    reflexivity.
  - intros e He. unfold get_unit_stats. unfold_m. cbn. rewrite He. reflexivity.
  - intros p e Hp Hfail. revert Hfail. run_collector; try reflexivity.
    all: intros [H | [H | [H | H]]]; congruence.
  - intros st. run_collector; intros Hst; simplify_eq; cbn.
    all: split; [reflexivity |]; eexists; repeat split; try eassumption.
    all: match goal with |- _ = Ok tt => destruct_all unit; assumption end.
  - intros p a s l Hp Ho Ha Hs Hl.
    run_collector; eexists; (split; [reflexivity |]); cbn; auto.
Qed.

Lemma snapshot_is_all_or_nothing_witness :
  fst (get_unit_stats Scenario.env_no_unit "nonexistent.service" fresh) = Ok None /\
  fst (get_unit_stats Scenario.env_no_sub_state "nginx.service" fresh) = Ok None /\
  exists st : UnitStats,
    fst (get_unit_stats Scenario.env_ok "nginx.service" fresh) = Ok (Some st) /\
    name st = "nginx.service" /\
    active_state st = "active" /\ sub_state st = "running" /\ load_state st = "loaded".
Proof.
  split; [| split].
  - refine (proj1 (proj2 (proj2 (proj2
      (snapshot_is_all_or_nothing Scenario.env_no_unit "nonexistent.service" fresh))))
      Scenario.no_such_unit eq_refl).
  - refine (proj1 (proj2 (proj2 (proj2 (proj2
      (snapshot_is_all_or_nothing Scenario.env_no_sub_state "nginx.service" fresh)))))
      "/org/freedesktop/systemd1/unit/nginx.service" Scenario.no_property eq_refl _).
    right; right; left; reflexivity.
  - refine (proj2 (proj2 (proj2 (proj2 (proj2 (proj2
      (snapshot_is_all_or_nothing Scenario.env_ok "nginx.service" fresh))))))
      "/org/freedesktop/systemd1/unit/nginx.service" "active" "running" "loaded"
      eq_refl eq_refl eq_refl eq_refl eq_refl).
Defined.

(** C5, as the code has it.  Once the unit handle and the three base
    properties are there, a snapshot is produced whatever the extended
    fetches do, and an extended property whose fetch raises has its
    default in it.  [MemoryCurrent], [CPUUsageNSec] and [UnitFileState]
    are fetched independently of each other: when the unit is not a
    [.service] unit, or [MainPID] and [NRestarts] were both read, all three
    are fetched, in this order and once each, and each one that answers is
    in the snapshot whatever the other two did. *)
Theorem resource_properties_are_independent
  (env : Env) (u p a s l : string) (w : Monitor) :
  GetUnit env u = Ok p ->
  get_object env p = Ok tt ->
  Get_str env p UNIT "ActiveState" = Ok a ->
  Get_str env p UNIT "SubState" = Ok s ->
  Get_str env p UNIT "LoadState" = Ok l ->
  let out := get_unit_stats env u w in
  let evs := new_events w (snd out) in
  let is_resource_fetch (ev : event) : bool :=
    match ev with
    | CallGet _ interface property =>
        String.eqb interface UNIT
        && (String.eqb property "MemoryCurrent"
            || String.eqb property "CPUUsageNSec"
            || String.eqb property "UnitFileState")
    | _ => false
    end in
  exists st : UnitStats,
    fst out = Ok (Some st) /\
    (is_ok (Get_int env p UNIT "MemoryCurrent") = false -> memory_current st = 0) /\
    (is_ok (Get_int env p UNIT "CPUUsageNSec") = false -> cpu_usage_nsec st = 0) /\
    (is_ok (Get_str env p UNIT "UnitFileState") = false ->
     unit_file_state st = "unknown") /\
    (Str.endswith u ".service" = true ->
     is_ok (Get_int env p SERVICE "MainPID") = false ->
     main_pid st = 0 /\ restart_count st = 0) /\
    (Str.endswith u ".service" = true ->
     is_ok (Get_int env p SERVICE "NRestarts") = false -> restart_count st = 0) /\
    (Str.endswith u ".service" = false \/
     is_ok (Get_int env p SERVICE "MainPID")
     && is_ok (Get_int env p SERVICE "NRestarts") = true ->
     List.filter is_resource_fetch evs =
       [CallGet p UNIT "MemoryCurrent";
        CallGet p UNIT "CPUUsageNSec";
        CallGet p UNIT "UnitFileState"] /\
     memory_current st = value_or 0 (Get_int env p UNIT "MemoryCurrent") /\
     cpu_usage_nsec st = value_or 0 (Get_int env p UNIT "CPUUsageNSec") /\
     unit_file_state st = value_or "unknown" (Get_str env p UNIT "UnitFileState")).
Proof.
  intros Hp Ho Ha Hs Hl out evs is_resource_fetch.
  subst out evs. run_collector; tidy_trace.
  all: eexists; split; [reflexivity |]; cbn.
  all: repeat split; try reflexivity; try discriminate.
  all: try (intros; discriminate).
  all: try (intros [? | ?]; discriminate).
  all: match goal with H : _ \/ _ |- _ => destruct H; discriminate end.
Qed.

Lemma resource_properties_are_independent_witness :
  exists st : UnitStats,
    fst (get_unit_stats Scenario.env_no_memory "nginx.service" fresh) = Ok (Some st) /\
    memory_current st = 0 /\
    cpu_usage_nsec st = 1234567890 /\
    unit_file_state st = "enabled".
Proof.
  destruct (resource_properties_are_independent Scenario.env_no_memory
              "nginx.service" "/org/freedesktop/systemd1/unit/nginx.service"
              "active" "running" "loaded" fresh
              eq_refl eq_refl eq_refl eq_refl eq_refl)
    as (st & Hst & Hmem & _ & _ & _ & _ & Hall).
  exists st. split; [exact Hst |]. split; [exact (Hmem eq_refl) |].
  destruct (Hall (or_intror eq_refl)) as (_ & _ & Hcpu & Hufs).
  split; [exact Hcpu | exact Hufs].
Defined.

(** C5 as stated fails: on a [.service] unit whose [MainPID] cannot be
    read, none of [NRestarts], [MemoryCurrent], [CPUUsageNSec],
    [UnitFileState] is fetched, although the bus would answer all four;
    the snapshot has the defaults for them. *)
Lemma main_pid_failure_skips_the_other_fetches :
  let env := Scenario.env_no_main_pid in
  let p := "/org/freedesktop/systemd1/unit/nginx.service" in
  let out := get_unit_stats env "nginx.service" fresh in
  Get_int env p SERVICE "NRestarts" = Ok 2 /\
  Get_int env p UNIT "MemoryCurrent" = Ok 52428800 /\
  Get_int env p UNIT "CPUUsageNSec" = Ok 1234567890 /\
  Get_str env p UNIT "UnitFileState" = Ok "enabled" /\
  trace (snd out) =
    [CallGetUnit "nginx.service"; CallGetObject p;
     CallGet p UNIT "ActiveState"; CallGet p UNIT "SubState";
     CallGet p UNIT "LoadState"; CallGet p SERVICE "MainPID";
     Log DEBUG "Could not get extended properties for nginx.service: Unknown property";
     CallTime] /\
  fst out =
    Ok (Some {| name := "nginx.service";
                active_state := "active";
                sub_state := "running";
                load_state := "loaded";
                unit_file_state := "unknown";
                main_pid := 0;
                restart_count := 0;
                memory_current := 0;
                cpu_usage_nsec := 0;
                timestamp := Scenario.t1 |}).
Proof. repeat split. Qed.

(** C7, as the code has it.  Units that are not services have no process
    and no restarts.
    For a name that does not end in [.service] every snapshot has
    [main_pid = 0] and [restart_count = 0]; [MainPID] and [NRestarts] are
    asked of the bus only for names that end in [.service]; and for such a
    name a fetch that raises does not abort the snapshot: [main_pid] is
    what [MainPID] answered, or 0, and [restart_count] is what [NRestarts]
    answered, or 0 when either of the two raised. *)
Theorem service_properties_only_for_services
  (env : Env) (u : string) (w : Monitor) :
  let out := get_unit_stats env u w in
  let evs := new_events w (snd out) in
  (Str.endswith u ".service" = false ->
   forall st : UnitStats,
     fst out = Ok (Some st) -> main_pid st = 0 /\ restart_count st = 0) /\
  (forall p property : string,
      In (CallGet p SERVICE property) evs -> Str.endswith u ".service" = true) /\
  (forall p a s l : string,
      Str.endswith u ".service" = true ->
      GetUnit env u = Ok p ->
      get_object env p = Ok tt ->
      Get_str env p UNIT "ActiveState" = Ok a ->
      Get_str env p UNIT "SubState" = Ok s ->
      Get_str env p UNIT "LoadState" = Ok l ->
      exists st : UnitStats,
        fst out = Ok (Some st) /\
        main_pid st = value_or 0 (Get_int env p SERVICE "MainPID") /\
        restart_count st =
          (if is_ok (Get_int env p SERVICE "MainPID")
           then value_or 0 (Get_int env p SERVICE "NRestarts")
           else 0)).
Proof.
  intros out evs. subst out evs. split; [| split].
  - intros Hsuffix st. run_collector; intros Hst; simplify_eq; cbn; auto.
  - intros p property. run_collector; tidy_trace; try reflexivity.
    all: unfold UNIT, SERVICE; cbn; intuition discriminate.
  - intros p a s l Hsuffix Hp Ho Ha Hs Hl.
    run_collector; eexists; (split; [reflexivity |]); cbn; auto.
Qed.

Lemma service_properties_only_for_services_witness :
  (forall st : UnitStats,
      fst (get_unit_stats Scenario.env_ok "user.mount" fresh) = Ok (Some st) ->
      main_pid st = 0 /\ restart_count st = 0) /\
  exists st : UnitStats,
    fst (get_unit_stats Scenario.env_no_restarts "nginx.service" fresh) = Ok (Some st) /\
    main_pid st = 1234 /\ restart_count st = 0.
Proof.
  split.
  - exact (proj1 (service_properties_only_for_services Scenario.env_ok "user.mount" fresh)
             eq_refl).
  - exact (proj2 (proj2 (service_properties_only_for_services
                           Scenario.env_no_restarts "nginx.service" fresh))
             "/org/freedesktop/systemd1/unit/nginx.service" "active" "running" "loaded"
             eq_refl eq_refl eq_refl eq_refl eq_refl eq_refl).
Defined.

(** C7 as stated fails: a failure of the service-specific fetch does not
    put both values at 0.  On a [.service] unit whose [NRestarts] cannot be
    read, [MainPID] has been read before and stays in the snapshot: the
    snapshot has [main_pid = 1234], and only [restart_count] is 0. *)
Lemma nrestarts_failure_keeps_the_main_pid :
  let env := Scenario.env_no_restarts in
  let p := "/org/freedesktop/systemd1/unit/nginx.service" in
  let out := get_unit_stats env "nginx.service" fresh in
  Get_int env p SERVICE "MainPID" = Ok 1234 /\
  Get_int env p SERVICE "NRestarts" = Raise Scenario.no_property /\
  trace (snd out) =
    [CallGetUnit "nginx.service"; CallGetObject p;
     CallGet p UNIT "ActiveState"; CallGet p UNIT "SubState";
     CallGet p UNIT "LoadState"; CallGet p SERVICE "MainPID";
     CallGet p SERVICE "NRestarts";
     Log DEBUG "Could not get extended properties for nginx.service: Unknown property";
     CallTime] /\
  fst out =
    Ok (Some {| name := "nginx.service";
                active_state := "active";
                sub_state := "running";
                load_state := "loaded";
                unit_file_state := "unknown";
                main_pid := 1234;
                restart_count := 0;
                memory_current := 0;
                cpu_usage_nsec := 0;
                timestamp := Scenario.t1 |}).
Proof. repeat split. Qed.

(** ** The reconciler *)

Section ReconcilerFacts.

Variable cfg : Config.
Variable env : Env.

Lemma send_events_concern st :
  Forall (concerns cfg (name st)) (send_events cfg env st).
Proof.
  unfold send_events.
  destruct (format_line cfg st) as [line | e0] eqn:Hline; [| repeat constructor].
  assert (Hl : line_of cfg (name st) line) by (exists st; auto).
  destruct (socket_socket env) as [[] | e]; [| repeat constructor].
  destruct (sock_connect env (telegraf_socket_path cfg)) as [[] | e1];
    [destruct (sock_send env line) as [[] | e2] |];
    destruct (sock_close env) as [[] | e3]; cbn; repeat constructor; exact Hl.
Qed.

Lemma send_events_no_info st : List.filter is_info (send_events cfg env st) = [].
Proof.
  unfold send_events.
  destruct (format_line cfg st) as [line | e0]; [| reflexivity].
  destruct (socket_socket env) as [[] | e]; [| reflexivity].
  destruct (sock_connect env (telegraf_socket_path cfg)) as [[] | e1];
    [destruct (sock_send env line) as [[] | e2] |];
    destruct (sock_close env) as [[] | e3]; reflexivity.
Qed.

Lemma send_events_no_store st : List.filter is_store (send_events cfg env st) = [].
Proof.
  unfold send_events.
  destruct (format_line cfg st) as [line | e0]; [| reflexivity].
  destruct (socket_socket env) as [[] | e]; [| reflexivity].
  destruct (sock_connect env (telegraf_socket_path cfg)) as [[] | e1];
    [destruct (sock_send env line) as [[] | e2] |];
    destruct (sock_close env) as [[] | e3]; reflexivity.
Qed.

(** One collection and emission, in terms of what the collector
    answered. *)
Lemma collect_and_send_run u w r w1 :
  get_unit_stats env u w = (Ok r, w1) ->
  collect_and_send_unit_stats cfg env u w =
    (Ok tt,
     match r with
     | None => w1
     | Some st =>
         push ([UnitsSet u st] ++ transition_events u (units w1 !! u) st
               ++ send_events cfg env st)
              (store u st w1)
     end).
Proof.
  intros Hget. unfold collect_and_send_unit_stats, bind at 1. rewrite Hget.
  destruct r as [st |]; [| reflexivity].
  unfold units_get, units_set, bind. cbn.
  unfold transition_events, transition_line.
  destruct (units w1 !! u) as [old |]; cbn.
  - destruct (String.eqb (active_state old) (active_state st)); cbn;
      unfold log, record, ret; cbn;
      rewrite send_to_telegraf_run; unfold push, store; cbn;
      rewrite <- ?app_assoc; reflexivity.
  - unfold ret. rewrite send_to_telegraf_run. unfold push, store; cbn.
    rewrite <- ?app_assoc. reflexivity.
Qed.

(** What one collection and emission does to the monitor. *)
Lemma collect_and_send_frame u w :
  exists (evs : list event) (w' : Monitor),
    collect_and_send_unit_stats cfg env u w = (Ok tt, w') /\
    trace w' = (trace w ++ evs)%list /\
    filtered_units w' = filtered_units w /\
    (units w' = units w \/
     exists st, name st = u /\ units w' = <[u := st]> (units w)) /\
    Forall (concerns cfg u) evs.
Proof.
  destruct (get_unit_stats_frame cfg env u w) as (r & evs & Hget & Hev & _ & _ & Hname).
  rewrite (collect_and_send_run u w r _ Hget).
  destruct r as [st |].
  - specialize (Hname st eq_refl).
    eexists. eexists. split; [reflexivity |]. cbn.
    split; [rewrite <- app_assoc; reflexivity |]. split; [reflexivity |].
    split; [right; eauto |].
    apply Forall_app. split; [exact Hev |].
    constructor; [cbn; auto |].
    apply Forall_app. split.
    + unfold transition_events. destruct (units w !! u) as [old |]; [| constructor].
      destruct (String.eqb _ _); repeat constructor.
    + rewrite <- Hname. apply send_events_concern.
  - exists evs. eexists. split; [reflexivity |]. cbn.
    repeat split; auto.
Qed.

End ReconcilerFacts.

(** C6, as the code has it.  When a collection yields the snapshot [st],
    what follows is, in this order: the state store entry of the unit is
    overwritten with [st]; if there was a stored snapshot with another
    [active_state], exactly one line [Unit <name> state changed: <old> ->
    <new>] is logged at level INFO, and no INFO line otherwise; the metric
    is emitted.  The transition line comes after the overwrite and before
    the emission.  When the collection fails nothing at all follows. *)
Theorem transition_is_logged_once
  (cfg : Config) (env : Env) (u : string) (w : Monitor) :
  (forall (st : UnitStats) (w1 : Monitor),
      get_unit_stats env u w = (Ok (Some st), w1) ->
      let out := collect_and_send_unit_stats cfg env u w in
      let evs := new_events w1 (snd out) in
      let transition :=
        match units w !! u with
        | Some old =>
            if String.eqb (active_state old) (active_state st) then []
            else [Log INFO ("Unit " ++ u ++ " state changed: "
                            ++ active_state old ++ " -> " ++ active_state st)]
        | None => []
        end in
      fst out = Ok tt /\
      units (snd out) = <[u := st]> (units w) /\
      evs = ([UnitsSet u st] ++ transition ++ send_events cfg env st)%list /\
      List.filter is_info evs = transition /\
      List.filter is_store evs = [UnitsSet u st]) /\
  (forall w1 : Monitor,
      get_unit_stats env u w = (Ok None, w1) ->
      collect_and_send_unit_stats cfg env u w = (Ok tt, w1)).
Proof.
  split; [| intros w1 Hget; exact (collect_and_send_run cfg env u w _ _ Hget)].
  intros st w1 Hget out evs transition.
  assert (Hunits : units w1 = units w).
  { destruct (get_unit_stats_frame cfg env u w) as (r & evs0 & Hrun & _).
    rewrite Hrun in Hget. injection Hget as _ <-. reflexivity. }
  assert (Htr : transition_events u (units w1 !! u) st = transition).
  { rewrite Hunits. reflexivity. }
  subst out evs. rewrite (collect_and_send_run cfg env u w _ _ Hget).
  cbn [fst snd]. rewrite Htr.
  split; [reflexivity |]. split; [cbn; now rewrite Hunits |].
  assert (Hev : new_events w1
                  (push ([UnitsSet u st] ++ transition ++ send_events cfg env st)
                     (store u st w1))
                = ([UnitsSet u st] ++ transition ++ send_events cfg env st)%list).
  { unfold new_events, push, store; cbn [trace]. apply drop_app_length. }
  rewrite Hev. split; [reflexivity |].
  split.
  - cbn [app List.filter is_info]. rewrite List.filter_app, send_events_no_info.
    rewrite app_nil_r. subst transition.
    destruct (units w !! u) as [old |]; [| reflexivity].
    destruct (String.eqb _ _); reflexivity.
  - cbn [app List.filter is_store]. rewrite List.filter_app, send_events_no_store.
    rewrite app_nil_r. subst transition.
    destruct (units w !! u) as [old |]; [| reflexivity].
    destruct (String.eqb _ _); reflexivity.
Qed.

Lemma transition_is_logged_once_witness :
  let w := Scenario.tracking_test_service in
  let w1 := snd (get_unit_stats Scenario.env_ok "test.service" w) in
  let out := collect_and_send_unit_stats Scenario.cfg0 Scenario.env_ok "test.service" w in
  get_unit_stats Scenario.env_ok "test.service" w
    = (Ok (Some Scenario.test_service_new), w1) /\
  List.filter is_info (new_events w1 (snd out))
    = [Log INFO "Unit test.service state changed: inactive -> active"].
Proof.
  intros w w1 out.
  assert (Hget : get_unit_stats Scenario.env_ok "test.service" w
                 = (Ok (Some Scenario.test_service_new), w1))
    by (vm_compute; reflexivity).
  split; [exact Hget |].
  vm_cast_no_check
    (proj1 (proj2 (proj2 (proj2
       (proj1 (transition_is_logged_once Scenario.cfg0 Scenario.env_ok "test.service" w)
          Scenario.test_service_new w1 Hget))))).
Defined.

(** C6 as stated fails on the order: in the scenario of the test suite
    (stored [inactive], collected [active]) the state store entry is
    overwritten first (event 11) and the transition line is logged after it
    (event 12), when the store already holds the new snapshot. *)
Lemma store_is_overwritten_before_the_transition_is_logged :
  let out := collect_and_send_unit_stats Scenario.cfg0 Scenario.env_ok "test.service"
               Scenario.tracking_test_service in
  let evs := trace (snd out) in
  first_index is_store evs = Some 11%nat /\
  first_index is_info evs = Some 12%nat /\
  nth_error evs 12 = Some (Log INFO "Unit test.service state changed: inactive -> active") /\
  active_state Scenario.test_service_old = "inactive" /\
  exists st : UnitStats,
    nth_error evs 11 = Some (UnitsSet "test.service" st) /\ active_state st = "active".
Proof.
  cbv zeta. split; [vm_compute; reflexivity |]. split; [vm_compute; reflexivity |].
  split; [vm_compute; reflexivity |]. split; [reflexivity |].
  eexists. split; [vm_compute; reflexivity | reflexivity].
Qed.

Section LoopFacts.

Variable cfg : Config.

Lemma for_each_scope_add names w :
  exists w' : Monitor,
    for_each names scope_add w = (Ok tt, w') /\
    units w' = units w /\
    trace w' = (trace w ++ map ScopeAdd names)%list /\
    (forall k : string, k ∈ filtered_units w' <-> In k names \/ k ∈ filtered_units w).
Proof.
  revert w. induction names as [| n names IH]; intros w.
  - exists w. cbn. rewrite app_nil_r. repeat split; auto. intros [[] | H]; exact H.
  - cbn [for_each]. unfold bind at 1, scope_add at 1.
    destruct (IH {| units := units w;
                    filtered_units := {[n]} ∪ filtered_units w;
                    trace := trace w ++ [ScopeAdd n] |})
      as (w' & Hrun & Hu & Ht & Hs).
    exists w'. rewrite Hrun. cbn in *.
    split; [reflexivity |]. split; [exact Hu |].
    split; [rewrite Ht, <- app_assoc; reflexivity |].
    intros k. rewrite Hs. set_solver.
Qed.

Lemma get_all_units_frame env w :
  exists (names : list string) (w' : Monitor),
    get_all_units cfg env w = (Ok names, w') /\
    units w' = units w /\
    (forall k : string, k ∈ filtered_units w' <-> In k names \/ k ∈ filtered_units w) /\
    (forall k : string, In k names -> should_monitor cfg k = true) /\
    List.filter is_socket (new_events w w') = [] /\
    List.filter is_store (new_events w w') = [].
Proof.
  unfold get_all_units, try_except, bind at 1. rewrite call_run.
  destruct (ListUnits env) as [all | e].
  - destruct (for_each_scope_add (List.filter (should_monitor cfg) all)
                (push [CallListUnits] w)) as (w' & Hrun & Hu & Ht & Hs).
    unfold bind at 1. rewrite Hrun. unfold bind, log, record, ret. cbn.
    eexists. eexists. split; [reflexivity |]. cbn.
    split; [exact Hu |]. split; [exact Hs |].
    split; [intros k Hk; apply List.filter_In in Hk; tauto |].
    unfold new_events. cbn [trace]. rewrite Ht. cbn [push trace].
    rewrite <- !app_assoc, drop_app_length. cbn [app List.filter is_socket is_store
      is_open is_connect is_send is_close orb].
    rewrite !List.filter_app. cbn.
    assert (H1 : forall l, List.filter is_socket (map ScopeAdd l) = []).
    { induction l; cbn; auto. }
    assert (H2 : forall l, List.filter is_store (map ScopeAdd l) = []).
    { induction l; cbn; auto. }
    rewrite H1, H2. split; reflexivity.
  - unfold bind, log, record, ret. cbn.
    exists [], (push [CallListUnits; Log ERROR ("Failed to get unit list: " ++ str_exn e)] w).
    split; [unfold push; cbn; rewrite <- app_assoc; reflexivity |].
    split; [reflexivity |]. split; [cbn; tauto |]. split; [intros k []|].
    rewrite new_events_push. split; reflexivity.
Qed.

Lemma collect_keeps_consistent env u w :
  u ∈ filtered_units w -> consistent w ->
  consistent (snd (collect_and_send_unit_stats cfg env u w)).
Proof.
  intros Hu [Hscope Hnamed].
  destruct (collect_and_send_frame cfg env u w)
    as (evs & w' & Hrun & _ & Hf & Hunits & _).
  rewrite Hrun. cbn [snd]. unfold consistent, store_in_scope, store_named in *.
  rewrite Hf. destruct Hunits as [-> | (st & Hn & ->)]; [auto |].
  split.
  - rewrite dom_insert_L. set_solver.
  - intros k st'. rewrite lookup_insert. case_decide; [| apply Hnamed].
    intros [= <-]. congruence.
Qed.

(** A loop of collections, as [poll_units] and the initial pass run it. *)
Lemma for_each_collect env names w :
  exists (evs : list event) (w' : Monitor),
    for_each names (collect_and_send_unit_stats cfg env) w = (Ok tt, w') /\
    trace w' = (trace w ++ evs)%list /\
    filtered_units w' = filtered_units w /\
    (forall k : string, ~ In k names -> units w' !! k = units w !! k) /\
    Forall (fun ev => exists n : string, In n names /\ concerns cfg n ev) evs /\
    ((forall n : string, In n names -> n ∈ filtered_units w) ->
     consistent w -> consistent w').
Proof.
  revert w. induction names as [| n names IH]; intros w.
  - exists [], w. cbn [for_each]. unfold ret.
    split; [reflexivity |]. split; [now rewrite app_nil_r |].
    split; [reflexivity |]. split; [reflexivity |].
    split; [constructor | auto].
  - cbn [for_each]. unfold bind at 1.
    pose proof (collect_keeps_consistent env n w) as Hkeep.
    destruct (collect_and_send_frame cfg env n w)
      as (evs1 & w1 & Hrun & Ht1 & Hf1 & Hu1 & Hc1).
    rewrite Hrun in Hkeep |- *. cbn [snd] in Hkeep.
    destruct (IH w1) as (evs2 & w2 & Hrun2 & Ht2 & Hf2 & Hu2 & Hc2 & Hk2).
    exists (evs1 ++ evs2)%list, w2. rewrite Hrun2.
    split; [reflexivity |].
    split; [rewrite Ht2, Ht1, <- app_assoc; reflexivity |].
    split; [congruence |]. split; [| split].
    + intros k Hk. rewrite Hu2 by (intros ?; apply Hk; now right).
      destruct Hu1 as [-> | (st & _ & ->)]; [reflexivity |].
      apply lookup_insert_ne. intros ->. apply Hk. now left.
    + apply Forall_app. split.
      * eapply Forall_impl; [exact Hc1 |]. intros ev Hev. exists n. split; [now left | exact Hev].
      * eapply Forall_impl; [exact Hc2 |]. intros ev (m & Hm & Hev).
        exists m. split; [now right | exact Hev].
    + intros Hin Hcons. apply Hk2.
      * intros m Hm. rewrite Hf1. apply Hin. now right.
      * apply Hkeep; [apply Hin; now left | exact Hcons].
Qed.

Lemma on_unit_removed_run u path w :
  on_unit_removed u path w =
    (Ok tt,
     if bool_decide (u ∈ filtered_units w)
     then {| units := delete u (units w);
             filtered_units := filtered_units w ∖ {[u]};
             trace := trace w ++ [Log INFO ("Unit removed: " ++ u);
                                  ScopeDiscard u; UnitsPop u] |}
     else w).
Proof.
  unfold on_unit_removed, bind at 1, scope_mem.
  destruct (bool_decide (u ∈ filtered_units w)); [| reflexivity].
  unfold bind, log, record, scope_discard, units_pop. cbn.
  rewrite <- !app_assoc. reflexivity.
Qed.

Lemma poll_units_run env w :
  poll_units cfg env w =
    for_each (elements (filtered_units w)) (collect_and_send_unit_stats cfg env) w.
Proof. reflexivity. Qed.

End LoopFacts.

(** C9.  Removal and rejected arrivals.  A lifecycle-removed notification
    for a unit in the scope set takes it out of the scope set and deletes
    its state store entry; all it does besides is log one line, so no
    metric is emitted.  In the poll tick that follows, every collection
    that is started, every store entry that is written and every line that
    is sent belongs to a unit that is in scope then; the removed unit is
    neither collected nor stored, and stays out of both containers.  A
    lifecycle-new notification for a unit that fails the filter changes
    nothing and does nothing. *)
Theorem removed_units_are_forgotten
  (cfg : Config) (env : Env) (u path : string) (w : Monitor) :
  u ∈ filtered_units w ->
  let removed := on_unit_removed u path w in
  let polled := poll_units cfg env (snd removed) in
  let evs := new_events (snd removed) (snd polled) in
  fst removed = Ok tt /\
  u ∉ filtered_units (snd removed) /\
  units (snd removed) !! u = None /\
  new_events w (snd removed) =
    [Log INFO ("Unit removed: " ++ u); ScopeDiscard u; UnitsPop u] /\
  fst polled = Ok tt /\
  Forall (fun ev => exists n : string,
              n ∈ filtered_units (snd removed) /\ n <> u /\ concerns cfg n ev) evs /\
  ~ In (CallGetUnit u) evs /\
  (forall st : UnitStats, ~ In (UnitsSet u st) evs) /\
  u ∉ filtered_units (snd polled) /\
  units (snd polled) !! u = None /\
  (forall (v vpath : string) (w0 : Monitor),
      should_monitor cfg v = false ->
      on_unit_new cfg env v vpath w0 = (Ok tt, w0)).
Proof.
  intros Hu removed polled evs. subst removed polled evs.
  rewrite on_unit_removed_run. rewrite bool_decide_true by exact Hu. cbn [fst snd].
  set (w1 := {| units := delete u (units w);
                filtered_units := filtered_units w ∖ {[u]};
                trace := _ |}).
  rewrite poll_units_run.
  destruct (for_each_collect cfg env (elements (filtered_units w1)) w1)
    as (evs & w2 & Hrun & Ht & Hf & Hu2 & Hc & _).
  rewrite Hrun. cbn [fst snd].
  assert (Hnot : ~ In u (elements (filtered_units w1))).
  { rewrite <- list_elem_of_In, elem_of_elements. subst w1. cbn. set_solver. }
  assert (Hev : new_events w1 w2 = evs).
  { unfold new_events. rewrite Ht. apply drop_app_length. }
  assert (Hc' : Forall (fun ev => exists n : string,
                            n ∈ filtered_units w1 /\ n <> u /\ concerns cfg n ev) evs).
  { eapply Forall_impl; [exact Hc |]. intros ev (n & Hn & Hcn).
    exists n. split; [| split; [| exact Hcn]].
    - now apply elem_of_elements, list_elem_of_In.
    - intros ->. exact (Hnot Hn). }
  rewrite Hev.
  split; [reflexivity |]. split; [subst w1; cbn; set_solver |].
  split; [subst w1; cbn; apply lookup_delete_eq |].
  split; [subst w1; unfold new_events; cbn [trace]; apply drop_app_length |].
  split; [reflexivity |]. split; [exact Hc' |].
  split; [| split; [| split; [| split]]].
  - intros Hin. rewrite Forall_forall in Hc'.
    destruct (Hc' _ (proj2 (list_elem_of_In _ _) Hin)) as (n & _ & Hne & Hcn).
    cbn in Hcn. congruence.
  - intros st Hin. rewrite Forall_forall in Hc'.
    destruct (Hc' _ (proj2 (list_elem_of_In _ _) Hin)) as (n & _ & Hne & Hcn).
    cbn in Hcn. destruct Hcn. congruence.
  - rewrite Hf. subst w1; cbn; set_solver.
  - rewrite Hu2 by exact Hnot. subst w1; cbn. apply lookup_delete_eq.
  - intros v vpath w0 Hv. unfold on_unit_new. rewrite Hv. reflexivity.
Qed.

Lemma removed_units_are_forgotten_witness :
  let removed := on_unit_removed "test.service" "/path/to/unit"
                   Scenario.tracking_test_service in
  "test.service" ∉ filtered_units (snd removed) /\
  units (snd removed) !! "test.service" = None /\
  units (snd (poll_units Scenario.cfg0 Scenario.env_ok (snd removed)))
    !! "test.service" = None.
Proof.
  assert (H : "test.service" ∈ filtered_units Scenario.tracking_test_service)
    by (vm_compute; reflexivity).
  pose proof (removed_units_are_forgotten Scenario.cfg0 Scenario.env_ok
                "test.service" "/path/to/unit" Scenario.tracking_test_service H) as T.
  cbv zeta in T. cbv zeta.
  split; [exact (proj1 (proj2 T)) |].
  split; [exact (proj1 (proj2 (proj2 T))) |].
  exact (proj1 (proj2 (proj2 (proj2 (proj2 (proj2 (proj2 (proj2 (proj2 (proj2 T)))))))))).
Defined.

Section InvariantFacts.

Variable cfg : Config.

Lemma consistent_fresh : consistent fresh.
Proof.
  split.
  - unfold store_in_scope. cbn. rewrite dom_empty_L. set_solver.
  - intros k st. cbn. rewrite lookup_empty. discriminate.
Qed.

Lemma poll_keeps_consistent env w :
  consistent w -> consistent (snd (poll_units cfg env w)).
Proof.
  intros Hw. rewrite poll_units_run.
  destruct (for_each_collect cfg env (elements (filtered_units w)) w)
    as (evs & w' & Hrun & _ & _ & _ & _ & Hk).
  rewrite Hrun. cbn [snd]. apply Hk; [| exact Hw].
  intros n Hn. now apply elem_of_elements, list_elem_of_In.
Qed.

Lemma on_unit_new_keeps_consistent env u path w :
  consistent w -> consistent (snd (on_unit_new cfg env u path w)).
Proof.
  intros [Hscope Hnamed]. unfold on_unit_new.
  destruct (should_monitor cfg u); [| split; assumption].
  unfold bind at 1, log, record. unfold bind at 1, scope_add.
  apply collect_keeps_consistent; cbn.
  - set_solver.
  - split; [| exact Hnamed]. unfold store_in_scope in *. cbn. set_solver.
Qed.

Lemma on_unit_removed_keeps_consistent u path w :
  consistent w -> consistent (snd (on_unit_removed u path w)).
Proof.
  intros [Hscope Hnamed]. rewrite on_unit_removed_run. cbn [snd].
  case_bool_decide; [| split; assumption].
  split.
  - unfold store_in_scope in *. cbn. rewrite dom_delete_L. set_solver.
  - intros k st. cbn. rewrite lookup_delete. case_decide; [discriminate |].
    apply Hnamed.
Qed.

Lemma initial_discovery_keeps_consistent env w :
  consistent w -> consistent (snd (initial_discovery cfg env w)).
Proof.
  intros [Hscope Hnamed]. unfold initial_discovery, bind at 1.
  destruct (get_all_units_frame cfg env w)
    as (names & w1 & Hrun & Hu & Hs & _).
  rewrite Hrun. unfold bind at 1. rewrite log_run.
  destruct (for_each_collect cfg env names
              (push [Log INFO "Collecting initial unit statistics"] w1))
    as (evs & w2 & Hrun2 & _ & _ & _ & _ & Hk).
  rewrite Hrun2. cbn [snd]. apply Hk.
  - intros n Hn. cbn. apply Hs. now left.
  - split.
    + unfold store_in_scope in *. cbn. rewrite Hu. intros k Hk1.
      apply Hs. right. auto.
    + intros k st. cbn. rewrite Hu. apply Hnamed.
Qed.

Lemma dispatch_keeps_consistent env sig w :
  consistent w -> consistent (snd (dispatch cfg env sig w)).
Proof.
  intros Hw. destruct sig as [u path | u path | iface |]; cbn [dispatch].
  - now apply on_unit_new_keeps_consistent.
  - now apply on_unit_removed_keeps_consistent.
  - unfold on_properties_changed. destruct (String.eqb _ _); exact Hw.
  - now apply poll_keeps_consistent.
Qed.

Lemma after_signals_consistent sigs w :
  consistent w -> consistent (after_signals cfg sigs w).
Proof.
  revert w. induction sigs as [| [env sig] sigs IH]; intros w Hw; cbn.
  - exact Hw.
  - apply IH. now apply dispatch_keeps_consistent.
Qed.

End InvariantFacts.

(** C10, as the code has it.  The reconciler keeps two facts: every key of
    the state store is in the scope set, and every stored snapshot is the
    complete snapshot of its key.  The initial discovery, a lifecycle-new,
    a lifecycle-removed and a properties-changed notification and a poll
    tick keep them from any monitor that has them; one collection and
    emission keeps them when it is run for a unit of the scope set, which is
    how every one of these operations runs it; so they hold after every
    run of the program.  When the collection fails, one collection and
    emission leaves the store and the scope set as they were, writes no
    store entry and touches no socket. *)
Theorem store_stays_within_scope (cfg : Config) (env : Env) (w : Monitor) :
  consistent w ->
  consistent (snd (initial_discovery cfg env w)) /\
  (forall u path : string, consistent (snd (on_unit_new cfg env u path w))) /\
  (forall u path : string, consistent (snd (on_unit_removed u path w))) /\
  (forall interface : string, consistent (snd (on_properties_changed interface w))) /\
  consistent (snd (poll_units cfg env w)) /\
  (forall u : string,
      u ∈ filtered_units w ->
      consistent (snd (collect_and_send_unit_stats cfg env u w))) /\
  (forall (env0 : Env) (sigs : list (Env * signal)),
      consistent (after_run cfg env0 sigs)) /\
  (forall (u : string) (w1 : Monitor),
      get_unit_stats env u w = (Ok None, w1) ->
      collect_and_send_unit_stats cfg env u w = (Ok tt, w1) /\
      units w1 = units w /\
      filtered_units w1 = filtered_units w /\
      List.filter is_socket (new_events w w1) = [] /\
      List.filter is_store (new_events w w1) = []).
Proof.
  intros Hw.
  split; [now apply initial_discovery_keeps_consistent |].
  split; [intros; now apply on_unit_new_keeps_consistent |].
  split; [intros; now apply on_unit_removed_keeps_consistent |].
  split; [intros iface; exact (dispatch_keeps_consistent cfg env (PropertiesChanged iface) w Hw) |].
  split; [now apply poll_keeps_consistent |].
  split; [intros u Hu; now apply collect_keeps_consistent |].
  split.
  - intros env0 sigs. unfold after_run. apply after_signals_consistent.
    apply initial_discovery_keeps_consistent, consistent_fresh.
  - intros u w1 Hget.
    split; [exact (collect_and_send_run cfg env u w _ _ Hget) |].
    destruct (get_unit_stats_frame cfg env u w) as (r & evs & Hrun & _ & Hsock & Hstore & _).
    rewrite Hrun in Hget. injection Hget as _ <-.
    rewrite new_events_push. repeat split; assumption.
Qed.

Lemma store_stays_within_scope_witness :
  consistent (snd (poll_units Scenario.cfg0 Scenario.env_ok
                     Scenario.tracking_test_service)) /\
  consistent (snd (collect_and_send_unit_stats Scenario.cfg0 Scenario.env_ok
                     "test.service" Scenario.tracking_test_service)).
Proof.
  assert (H : consistent Scenario.tracking_test_service).
  { split.
    - unfold store_in_scope. cbn. rewrite dom_singleton_L. reflexivity.
    - intros k st. cbn. intros Hk. apply lookup_singleton_Some in Hk as [<- <-].
      reflexivity. }
  pose proof (store_stays_within_scope Scenario.cfg0 Scenario.env_ok
                Scenario.tracking_test_service H) as T.
  split.
  - exact (proj1 (proj2 (proj2 (proj2 (proj2 T))))).
  - refine (proj1 (proj2 (proj2 (proj2 (proj2 (proj2 T))))) "test.service" _).
    vm_compute; reflexivity.
Defined.

(** C10 as stated fails for one collection and emission on its own: run
    for a unit that is not in the scope set, as the test suite does, it
    stores a snapshot under a key that the scope set does not have. *)
Lemma collection_outside_the_scope_breaks_the_invariant :
  store_in_scope fresh /\
  ~ store_in_scope
      (snd (collect_and_send_unit_stats Scenario.cfg0 Scenario.env_ok
              "nginx.service" fresh)).
Proof.
  split; [exact (proj1 consistent_fresh) |].
  assert (Hget : get_unit_stats Scenario.env_ok "nginx.service" fresh
                 = (Ok (Some (Scenario.nginx_collected)),
                    snd (get_unit_stats Scenario.env_ok "nginx.service" fresh)))
    by (vm_compute; reflexivity).
  rewrite (collect_and_send_run Scenario.cfg0 Scenario.env_ok "nginx.service" fresh
             _ _ Hget).
  unfold store_in_scope, push, store. cbn [units filtered_units snd].
  assert (Hu : units (snd (get_unit_stats Scenario.env_ok "nginx.service" fresh)) = ∅).
  { destruct (get_unit_stats_frame Scenario.cfg0 Scenario.env_ok "nginx.service" fresh)
      as (r & evs & -> & _). reflexivity. }
  assert (Hf : filtered_units (snd (get_unit_stats Scenario.env_ok "nginx.service" fresh))
               = ∅).
  { destruct (get_unit_stats_frame Scenario.cfg0 Scenario.env_ok "nginx.service" fresh)
      as (r & evs & -> & _). reflexivity. }
  rewrite Hu, Hf, dom_insert_L. clear. set_solver.
Qed.

(** * Further properties *)

(** ** Filter lists of the configuration *)

Section CfgFacts.

Import Cfg.

Lemma lstrip_headed s : headed (lstrip s).
Proof.
  induction s as [| c s IH]; cbn; [exact I |].
  destruct (is_space c) eqn:E; [exact IH | exact E].
Qed.

Lemma lstrip_of_headed s : headed s -> lstrip s = s.
Proof. destruct s as [| c s]; cbn; [reflexivity |]. now intros ->. Qed.

Lemma rstrip_cons c s :
  rstrip (String c s) =
    match rstrip s with
    | EmptyString => if is_space c then EmptyString else String c EmptyString
    | String d t => String c (String d t)
    end.
Proof. reflexivity. Qed.

Lemma rstrip_headed s : headed s -> headed (rstrip s).
Proof.
  destruct s as [| c s]; [intros; exact I |].
  intros Hc. rewrite rstrip_cons. cbn in Hc. rewrite Hc.
  destruct (rstrip s); exact Hc.
Qed.

Lemma rstrip_idem s : rstrip (rstrip s) = rstrip s.
Proof.
  induction s as [| c s IH]; [reflexivity |].
  rewrite rstrip_cons. destruct (rstrip s) as [| d t] eqn:E.
  - destruct (is_space c) eqn:Ec; [reflexivity |]. cbn. now rewrite Ec.
  - rewrite rstrip_cons, IH. reflexivity.
Qed.

Lemma strip_idem s : strip (strip s) = strip s.
Proof.
  unfold strip.
  rewrite (lstrip_of_headed (rstrip (lstrip s))) by apply rstrip_headed, lstrip_headed.
  apply rstrip_idem.
Qed.

Lemma mem_lstrip c s : Str.mem c (lstrip s) = true -> Str.mem c s = true.
Proof.
  induction s as [| d s IH]; cbn; [auto |].
  destruct (is_space d); [| auto].
  intros H. rewrite (IH H). apply orb_true_r.
Qed.

Lemma mem_rstrip c s : Str.mem c (rstrip s) = true -> Str.mem c s = true.
Proof.
  induction s as [| d s IH]; [auto |].
  rewrite rstrip_cons. destruct (rstrip s) as [| e t].
  - destruct (is_space d); cbn; [discriminate |].
    rewrite orb_false_r. intros ->. reflexivity.
  - cbn [Str.mem]. intros H. apply orb_true_iff in H as [H | H].
    + cbn. now rewrite H.
    + cbn. rewrite (IH H). apply orb_true_r.
Qed.

Lemma mem_strip c s : Str.mem c s = false -> Str.mem c (strip s) = false.
Proof.
  intros H. destruct (Str.mem c (strip s)) eqn:E; [| reflexivity].
  apply mem_rstrip, mem_lstrip in E. congruence.
Qed.

Lemma split_not_nil sep s : split sep s <> [].
Proof.
  destruct s as [| c s]; cbn; [discriminate |].
  destruct (Ascii.eqb c sep); [discriminate |].
  destruct (split sep s); discriminate.
Qed.

Lemma split_tokens_free sep s token :
  In token (split sep s) -> Str.mem sep token = false.
Proof.
  revert token. induction s as [| c s IH]; intros token; cbn.
  - intros [<- | []]. reflexivity.
  - destruct (Ascii.eqb c sep) eqn:E.
    + intros [<- | H]; [reflexivity | auto].
    + destruct (split sep s) as [| t ts] eqn:Es.
      * intros [<- | []]. cbn. rewrite Ascii.eqb_sym, E. reflexivity.
      * intros [<- | H].
        -- cbn. rewrite Ascii.eqb_sym, E. cbn. apply IH. now left.
        -- apply IH. now right.
Qed.

Lemma nonempty_true s : nonempty s = true <-> s <> EmptyString.
Proof. destruct s; cbn; split; congruence. Qed.

Lemma parse_unguarded s :
  _parse_filter_list s =
    map strip (List.filter (fun pattern => nonempty (strip pattern)) (split "," s)).
Proof.
  unfold _parse_filter_list.
  destruct (nonempty (strip s)) eqn:E; [reflexivity |]. cbn [negb].
  assert (Hblank : forall t, nonempty (strip t) = false ->
            forall token, In token (split "," t) -> nonempty (strip token) = false).
  { clear. intros t. induction t as [| c t IH]; intros Ht token.
    - cbn. intros [<- | []]. reflexivity.
    - assert (Hc : is_space c = true).
      { unfold strip in Ht. cbn [lstrip] in Ht. destruct (is_space c) eqn:Ec; [reflexivity |].
        rewrite rstrip_cons in Ht. destruct (rstrip t); [rewrite Ec in Ht |]; discriminate. }
      assert (Ht' : nonempty (strip t) = false).
      { unfold strip in *. cbn [lstrip] in Ht. now rewrite Hc in Ht. }
      cbn [split]. destruct (Ascii.eqb c ",") eqn:Ecomma.
      + intros [<- | H]; [reflexivity | now apply IH].
      + pose proof (split_not_nil "," t) as Hne.
        destruct (split "," t) as [| t0 ts] eqn:Es; [congruence |].
        intros [<- | H].
        * unfold strip. cbn [lstrip]. rewrite Hc. apply (IH Ht' t0). now left.
        * apply (IH Ht'). now right. }
  specialize (Hblank s E).
  induction (split "," s) as [| t ts IH]; [reflexivity |].
  cbn. rewrite (Hblank t) by now left. apply IH. intros token H. apply Hblank. now right.
Qed.

End CfgFacts.

(** X1.  Every pattern that [_parse_filter_list] returns is clean: it is
    not empty, carries no white space at either end (white space as
    [str.strip()] takes it, next line and no-break space included) and
    holds no comma. *)
Theorem parsed_patterns_are_clean (filter_str pattern : string) :
  In pattern (Cfg._parse_filter_list filter_str) -> Cfg.clean pattern.
Proof.
  rewrite parse_unguarded. intros H.
  apply in_map_iff in H as (token & <- & H).
  apply List.filter_In in H as [Htoken Hne].
  split; [now apply nonempty_true |]. split; [apply strip_idem |].
  apply mem_strip. exact (split_tokens_free _ _ _ Htoken).
Qed.

Lemma parsed_patterns_are_clean_witness :
  Cfg._parse_filter_list " *.service , tmp-* ,, " = ["*.service"; "tmp-*"] /\
  Cfg.clean "tmp-*".
Proof.
  split; [reflexivity |].
  apply (parsed_patterns_are_clean " *.service , tmp-* ,, " "tmp-*").
  right; left; reflexivity.
Defined.

Section RoundTrip.

Import Cfg.

Lemma blank_cons c s : blank (String c s) -> is_space c = true /\ blank s.
Proof.
  unfold blank, strip. cbn [lstrip]. destruct (is_space c) eqn:Ec; [auto |].
  rewrite rstrip_cons. destruct (rstrip s); [rewrite Ec |]; discriminate.
Qed.

Lemma lstrip_blank_app a s : blank a -> lstrip (a ++ s) = lstrip s.
Proof.
  induction a as [| c a IH]; [reflexivity |].
  intros [Hc Ha]%blank_cons.
  change (lstrip (String c (a ++ s)) = lstrip s). cbn [lstrip]. rewrite Hc. auto.
Qed.

Lemma rstrip_blank b : blank b -> rstrip b = EmptyString.
Proof.
  induction b as [| c b IH]; [reflexivity |].
  intros [Hc Hb]%blank_cons. rewrite rstrip_cons, (IH Hb), Hc. reflexivity.
Qed.

Lemma rstrip_app_blank s b : blank b -> rstrip (s ++ b) = rstrip s.
Proof.
  intros Hb. induction s as [| c s IH]; [now apply rstrip_blank |].
  change (rstrip (String c (s ++ b)) = rstrip (String c s)).
  now rewrite !rstrip_cons, IH.
Qed.

Lemma clean_headed p : clean p -> headed p /\ rstrip p = p.
Proof.
  intros (_ & Hs & _). unfold strip in Hs.
  assert (Hh : headed p) by (rewrite <- Hs; apply rstrip_headed, lstrip_headed).
  split; [exact Hh |]. now rewrite (lstrip_of_headed p Hh) in Hs.
Qed.

Lemma headed_app p s : p <> EmptyString -> headed p -> headed (p ++ s).
Proof. destruct p; [congruence | auto]. Qed.

Lemma strip_padded a p b : blank a -> clean p -> blank b -> strip (a ++ p ++ b) = p.
Proof.
  intros Ha Hp Hb. destruct (clean_headed p Hp) as [Hh Hr].
  unfold strip. rewrite lstrip_blank_app by exact Ha.
  rewrite lstrip_of_headed by (apply headed_app; [apply Hp | exact Hh]).
  now rewrite rstrip_app_blank.
Qed.

Lemma mem_app c x y : Str.mem c (x ++ y) = Str.mem c x || Str.mem c y.
Proof.
  induction x as [| d x IH]; [reflexivity |].
  change (Str.mem c (String d (x ++ y)) = Str.mem c (String d x) || Str.mem c y).
  cbn [Str.mem]. now rewrite IH, orb_assoc.
Qed.

Lemma blank_no_comma a : blank a -> Str.mem "," a = false.
Proof.
  induction a as [| c a IH]; [reflexivity |].
  intros [Hc Ha]%blank_cons. cbn [Str.mem]. rewrite (IH Ha), orb_false_r.
  destruct (Ascii.eqb "," c) eqn:E; [| reflexivity].
  apply Ascii.eqb_eq in E. subst c. discriminate Hc.
Qed.

Lemma padded_no_comma a p b :
  blank a -> clean p -> blank b -> Str.mem "," (a ++ p ++ b) = false.
Proof.
  intros Ha (_ & _ & Hp) Hb.
  now rewrite !mem_app, (blank_no_comma a Ha), Hp, (blank_no_comma b Hb).
Qed.

Lemma split_plain sep x : Str.mem sep x = false -> split sep x = [x].
Proof.
  induction x as [| c x IH]; [reflexivity |].
  cbn [Str.mem split]. intros [Hc Hx]%orb_false_iff.
  rewrite Ascii.eqb_sym, Hc, (IH Hx). reflexivity.
Qed.

Lemma split_app sep x rest :
  Str.mem sep x = false ->
  split sep (x ++ String sep rest) = x :: split sep rest.
Proof.
  induction x as [| c x IH].
  - intros _. change (split sep (String sep rest) = EmptyString :: split sep rest).
    cbn [split]. now rewrite Ascii.eqb_refl.
  - cbn [Str.mem]. intros [Hc Hx]%orb_false_iff.
    change (split sep (String c (x ++ String sep rest)) = String c x :: split sep rest).
    cbn [split]. rewrite Ascii.eqb_sym, Hc, (IH Hx). reflexivity.
Qed.

Lemma split_join tokens :
  tokens <> [] ->
  Forall (fun token => Str.mem "," token = false) tokens ->
  split "," (Str.join "," tokens) = tokens.
Proof.
  unfold Str.join. induction tokens as [| x tokens IH]; [congruence |].
  intros _ Hall. inversion Hall as [| ? ? Hx Hrest]; subst.
  destruct tokens as [| y tokens].
  - cbn. now apply split_plain.
  - change (String.concat "," (x :: y :: tokens))
      with (x ++ String "," (String.concat "," (y :: tokens))).
    rewrite split_app by exact Hx. f_equal. apply IH; [discriminate | exact Hrest].
Qed.

End RoundTrip.

(** X2.  Round trip of a filter list.  Clean patterns, each written with
    any white space before and after it and joined by commas, are read
    back by [_parse_filter_list] exactly as they were, in the same order;
    the empty list is the empty string. *)
Theorem filter_list_round_trip (entries : list (string * string * string)) :
  Forall (fun entry =>
            match entry with
            | (before, pattern, after) =>
                Cfg.blank before /\ Cfg.clean pattern /\ Cfg.blank after
            end) entries ->
  Cfg._parse_filter_list (Str.join "," (map Cfg.padded entries))
  = map Cfg.pattern_of entries.
Proof.
  intros Hall. destruct entries as [| e0 entries0] eqn:Eentries; [reflexivity |].
  rewrite <- Eentries in *. rewrite parse_unguarded.
  rewrite split_join.
  - clear Eentries. induction Hall as [| [[a p] b] entries (Ha & Hp & Hb) Hall IH];
      [reflexivity |].
    cbn [map List.filter Cfg.padded Cfg.pattern_of].
    rewrite (strip_padded a p b Ha Hp Hb).
    destruct p as [| c p]; [destruct Hp as [Hp _]; congruence |].
    cbn [Cfg.nonempty]. cbn [map]. f_equal; [now apply strip_padded | exact IH].
  - rewrite Eentries. discriminate.
  - clear Eentries. induction Hall as [| [[a p] b] entries (Ha & Hp & Hb) Hall IH];
      constructor; [now apply padded_no_comma | exact IH].
Qed.

Lemma filter_list_round_trip_witness :
  Cfg._parse_filter_list " *.service,tmp-* " = ["*.service"; "tmp-*"].
Proof.
  refine (filter_list_round_trip [(" ", "*.service", ""); ("", "tmp-*", " ")] _).
  repeat constructor; discriminate.
Defined.

(** ** The filter engine, continued *)

Section GlobFacts.

Lemma plain_cons c p :
  plain (String c p) = true ->
  Ascii.eqb c "*" = false /\ Ascii.eqb c "?" = false /\ Ascii.eqb c "[" = false /\
  plain p = true.
Proof.
  unfold plain. cbn [Str.mem].
  rewrite (Ascii.eqb_sym "*" c), (Ascii.eqb_sym "?" c), (Ascii.eqb_sym "[" c).
  destruct (Ascii.eqb c "*"), (Ascii.eqb c "?"), (Ascii.eqb c "["),
    (Str.mem "*" p), (Str.mem "?" p), (Str.mem "[" p); cbn; intuition congruence.
Qed.

Lemma translate_plain p :
  plain p = true ->
  forall (fuel : nat) (prev_star : bool),
    (String.length p <= fuel)%nat ->
    Fnmatch.translate_from fuel prev_star p = literal_items p.
Proof.
  induction p as [| c p IH]; intros Hp fuel b Hfuel.
  - destruct fuel; reflexivity.
  - destruct fuel as [| fuel]; [cbn in Hfuel; lia |].
    apply plain_cons in Hp as (H1 & H2 & H3 & Hp).
    cbn [Fnmatch.translate_from literal_items]. rewrite H1, H2, H3.
    f_equal. apply IH; [exact Hp | cbn in Hfuel; lia].
Qed.

Lemma string_length_app (a b : string) :
  String.length (a ++ b) = (String.length a + String.length b)%nat.
Proof.
  induction a as [| c a IH]; [reflexivity |].
  change (S (String.length (a ++ b)) = S (String.length a + String.length b)).
  now rewrite IH.
Qed.

Lemma translate_plain_then p rest :
  plain p = true ->
  forall (fuel : nat) (prev_star : bool),
    (String.length p <= fuel)%nat ->
    Fnmatch.translate_from (fuel + String.length rest) prev_star (p ++ rest)
    = (literal_items p
       ++ Fnmatch.translate_from (fuel - String.length p + String.length rest)
            (match p with EmptyString => prev_star | _ => false end) rest)%list.
Proof.
  induction p as [| c p IH]; intros Hp fuel b Hfuel.
  - cbn [literal_items app String.length]. rewrite Nat.sub_0_r. reflexivity.
  - destruct fuel as [| fuel]; [cbn in Hfuel; lia |].
    apply plain_cons in Hp as (H1 & H2 & H3 & Hp).
    change (String c p ++ rest) with (String c (p ++ rest)).
    cbn [Fnmatch.translate_from literal_items Nat.add]. rewrite H1, H2, H3.
    cbn [app]. f_equal. rewrite IH by (auto; cbn in Hfuel; lia).
    cbn [String.length Nat.sub]. destruct p; reflexivity.
Qed.

Lemma glob_match_literal p u :
  Fnmatch.glob_match (literal_items p) u = true <-> u = p.
Proof.
  revert u. induction p as [| c p IH]; intros u; cbn.
  - destruct u; split; congruence.
  - destruct u as [| d u]; [split; congruence |].
    rewrite andb_true_iff, IH, Ascii.eqb_eq. split; [intros [-> ->] | intros [= -> ->]]; auto.
Qed.

Lemma glob_match_star items u :
  Fnmatch.glob_match (Fnmatch.Star :: items) u = true <->
  exists stem rest : string, u = stem ++ rest /\ Fnmatch.glob_match items rest = true.
Proof.
  split.
  - induction u as [| c u IH]; cbn.
    + rewrite orb_false_r. intros H. exists EmptyString, EmptyString. auto.
    + intros [H | H]%orb_true_iff.
      * exists EmptyString, (String c u). auto.
      * destruct (IH H) as (stem & rest & -> & Hr).
        exists (String c stem), rest. auto.
  - intros (stem & rest & -> & Hr). now apply glob_match_star_skip.
Qed.

Lemma glob_match_prefix p u :
  Fnmatch.glob_match (literal_items p ++ [Fnmatch.Star]) u = startswith u p.
Proof.
  revert u. induction p as [| c p IH]; intros u.
  - cbn [literal_items app startswith].
    apply (proj2 (glob_match_star [] u)). exists u, EmptyString.
    split; [| reflexivity].
    clear. induction u as [| c u IH]; [reflexivity |].
    change (String c u = String c (u ++ "")). now rewrite <- IH.
  - destruct u as [| d u]; [reflexivity |].
    cbn [literal_items app Fnmatch.glob_match Fnmatch.item_match startswith].
    rewrite IH, (Ascii.eqb_sym d c). reflexivity.
Qed.

Lemma substring_all s : substring 0 (String.length s) s = s.
Proof. induction s as [| c s IH]; [reflexivity |]. cbn. now rewrite IH. Qed.

Lemma substring_skip stem s :
  substring (String.length stem) (String.length s) (stem ++ s) = s.
Proof.
  induction stem as [| c stem IH]; [apply substring_all |].
  change (substring (S (String.length stem)) (String.length s) (String c (stem ++ s)) = s).
  cbn [substring]. exact IH.
Qed.

Lemma substring_split u n :
  (n <= String.length u)%nat ->
  u = substring 0 n u ++ substring n (String.length u - n) u.
Proof.
  revert n. induction u as [| c u IH]; intros n Hn.
  - destruct n; [reflexivity | cbn in Hn; lia].
  - destruct n as [| n].
    + cbn [substring String.length Nat.sub]. now rewrite substring_all.
    + cbn [substring String.length Nat.sub].
      change (String c u = String c (substring 0 n u ++ substring n (String.length u - n) u)).
      f_equal. apply IH. cbn in Hn. lia.
Qed.

Lemma endswith_iff u suffix :
  Str.endswith u suffix = true <-> exists stem : string, u = stem ++ suffix.
Proof.
  unfold Str.endswith. rewrite andb_true_iff, Nat.leb_le, String.eqb_eq. split.
  - intros [Hle Hsub].
    exists (substring 0 (String.length u - String.length suffix) u).
    rewrite (substring_split u (String.length u - String.length suffix)) at 1 by lia.
    f_equal.
    replace (String.length u - (String.length u - String.length suffix))%nat
      with (String.length suffix) by lia.
    exact Hsub.
  - intros (stem & ->). rewrite string_length_app. split; [lia |].
    replace (String.length stem + String.length suffix - String.length suffix)%nat
      with (String.length stem) by lia.
    apply substring_skip.
Qed.

Lemma any_match_iff u patterns :
  any_match u patterns = true <->
  exists p : string, In p patterns /\ Fnmatch.fnmatch u p = true.
Proof. unfold any_match. apply existsb_exists. Qed.

End GlobFacts.

(** X3.  The decision of the filter depends on the two pattern lists only
    as sets: lists with the same patterns, in any order and with any
    repetitions, accept the same unit names. *)
Theorem filter_ignores_order_and_repeats
  (include1 include2 exclude1 exclude2 : list string) (u : string) :
  (forall p : string, In p include1 <-> In p include2) ->
  (forall p : string, In p exclude1 <-> In p exclude2) ->
  _should_monitor_unit include1 exclude1 u = _should_monitor_unit include2 exclude2 u.
Proof.
  intros HI HE.
  assert (Hany : forall l1 l2, (forall p, In p l1 <-> In p l2) ->
                               any_match u l1 = any_match u l2).
  { intros l1 l2 H. apply eq_true_iff_eq. rewrite !any_match_iff.
    split; intros (p & Hp & Hm); exists p; split; auto; now apply H. }
  assert (Htruthy : forall l1 l2 : list string,
             (forall p, In p l1 <-> In p l2) -> truthy l1 = truthy l2).
  { intros [| a l1] [| b l2] H; try reflexivity.
    - destruct (proj2 (H b) (or_introl eq_refl)).
    - destruct (proj1 (H a) (or_introl eq_refl)). }
  unfold _should_monitor_unit.
  now rewrite (Hany _ _ HI), (Hany _ _ HE), (Htruthy _ _ HI), (Htruthy _ _ HE).
Qed.

Lemma filter_ignores_order_and_repeats_witness :
  _should_monitor_unit ["*.service"; "*.timer"] ["tmp-*"] "backup.timer"
  = _should_monitor_unit ["*.timer"; "*.service"; "*.timer"] ["tmp-*"; "tmp-*"] "backup.timer".
Proof.
  apply filter_ignores_order_and_repeats; intros p; cbn; tauto.
Defined.

(** X4.  A pattern without [*], [?] and [[] matches its own name and no
    other: as the only include pattern it admits exactly that unit, and as
    an exclude pattern it rejects exactly that unit. *)
Theorem plain_pattern_names_one_unit (p u : string) :
  plain p = true ->
  (Fnmatch.fnmatch u p = true <-> u = p) /\
  (_should_monitor_unit [p] [] u = true <-> u = p) /\
  (_should_monitor_unit [] [p] u = false <-> u = p).
Proof.
  intros Hp.
  assert (Hm : Fnmatch.fnmatch u p = true <-> u = p).
  { unfold Fnmatch.fnmatch, Fnmatch.translate.
    rewrite (translate_plain p Hp) by lia. apply glob_match_literal. }
  split; [exact Hm |]. unfold _should_monitor_unit, any_match. cbn.
  rewrite !orb_false_r. destruct (Fnmatch.fnmatch u p); cbn; intuition congruence.
Qed.

Lemma plain_pattern_names_one_unit_witness :
  _should_monitor_unit ["nginx.service"] [] "nginx.service" = true.
Proof.
  apply (proj1 (proj2 (plain_pattern_names_one_unit "nginx.service" "nginx.service"
                         eq_refl))).
  reflexivity.
Defined.

(** X5.  Prefix and suffix patterns.  For a plain [s], the pattern [*s]
    matches exactly the names that end with [s], and the pattern [s*]
    exactly the names that start with [s]; so excluding [*.mount] rejects
    exactly the units whose name ends in [.mount]. *)
Theorem prefix_and_suffix_patterns (s u : string) :
  plain s = true ->
  Fnmatch.fnmatch u ("*" ++ s) = Str.endswith u s /\
  Fnmatch.fnmatch u (s ++ "*") = startswith u s /\
  _should_monitor_unit [] ["*" ++ s] u = negb (Str.endswith u s).
Proof.
  intros Hs.
  assert (Hsuffix : Fnmatch.fnmatch u ("*" ++ s) = Str.endswith u s).
  { unfold Fnmatch.fnmatch, Fnmatch.translate.
    change ("*" ++ s) with (String "*" s).
    cbn [String.length Fnmatch.translate_from]. cbn [Ascii.eqb Bool.eqb].
    rewrite (translate_plain s Hs) by lia.
    apply eq_true_iff_eq. rewrite glob_match_star, endswith_iff.
    split.
    - intros (stem & rest & -> & Hr). apply glob_match_literal in Hr as ->. eauto.
    - intros (stem & ->). exists stem, s. split; [reflexivity |].
      now apply glob_match_literal. }
  split; [exact Hsuffix |]. split.
  - unfold Fnmatch.fnmatch, Fnmatch.translate.
    rewrite string_length_app.
    rewrite (translate_plain_then s "*" Hs (String.length s) false) by lia.
    rewrite Nat.sub_diag. cbn [String.length Nat.add Fnmatch.translate_from].
    cbn [Ascii.eqb Bool.eqb].
    destruct s; apply glob_match_prefix.
  - unfold _should_monitor_unit, any_match. cbn. now rewrite orb_false_r, Hsuffix.
Qed.

Lemma prefix_and_suffix_patterns_witness :
  Fnmatch.fnmatch "tmp-1234.service" "tmp-*" = true /\
  _should_monitor_unit [] ["*.mount"] "user.mount" = false.
Proof.
  split.
  - refine (eq_trans (proj1 (proj2 (prefix_and_suffix_patterns "tmp-" "tmp-1234.service"
                                      eq_refl))) _).
    reflexivity.
  - refine (eq_trans (proj2 (proj2 (prefix_and_suffix_patterns ".mount" "user.mount"
                                      eq_refl))) _).
    reflexivity.
Defined.

(** ** The stats collector, continued *)

(** The shape of every collection. *)
Lemma get_unit_stats_shape env u w :
  exists (r : option UnitStats) (evs : list event),
    get_unit_stats env u w = (Ok r, push evs w) /\
    collections evs = [u] /\
    sent evs = [] /\
    (List.length (List.filter is_bus_call evs) <= 10)%nat /\
    (List.length (List.filter is_clock evs) <= 1)%nat /\
    (r = None ->
     List.filter is_clock evs = [] /\
     (List.length (List.filter is_bus_call evs) <= 5)%nat /\
     exists e : exn,
       List.filter is_log evs
       = [Log DEBUG ("Failed to get stats for " ++ u ++ ": " ++ str_exn e)]) /\
    (forall st : UnitStats,
        r = Some st ->
        List.last evs CallListUnits = CallTime /\
        timestamp st = time_time env (List.length (trace w) + List.length evs - 1)).
Proof.
  run_collector.
  all: eexists; eexists; split;
    [unfold push; cbn; rewrite <- ?app_assoc; cbn; reflexivity |].
  all: split; [reflexivity |]; split; [reflexivity |].
  all: split; [cbn; lia |]; split; [cbn; lia |].
  all: split;
    [ intros Hr;
      first [ discriminate Hr
            | split; [reflexivity |]; split; [cbn; lia |]; eexists; reflexivity ]
    | intros st Hst;
      first [ discriminate Hst
            | simplify_eq; split; [reflexivity |]; cbn [timestamp];
              f_equal; rewrite ?length_app; cbn; lia ] ].
Qed.

(** X6.  Every collection is bounded and stays with the bus: it makes
    exactly one [GetUnit] call, for its own unit, asks the bus at most ten
    times in all, reads the clock at most once, and neither sends anything
    nor writes a state store entry. *)
Theorem collection_is_bounded (env : Env) (u : string) (w : Monitor) :
  let evs := new_events w (snd (get_unit_stats env u w)) in
  collections evs = [u] /\
  (List.length (List.filter is_bus_call evs) <= 10)%nat /\
  (List.length (List.filter is_clock evs) <= 1)%nat /\
  sent evs = [] /\
  List.filter is_store evs = [].
Proof.
  intros evs. subst evs.
  destruct (get_unit_stats_shape env u w) as (r & evs & Hrun & Hc & Hs & Hb & Hk & _).
  destruct (get_unit_stats_frame Scenario.cfg0 env u w)
    as (r' & evs' & Hrun' & _ & _ & Hstore & _).
  rewrite Hrun in Hrun'. injection Hrun' as _ Hpush.
  apply app_inv_head in Hpush. subst evs'.
  rewrite Hrun. cbn [snd]. rewrite new_events_push. auto.
Qed.

(** X7.  A collection that fails is told once, quietly, and with its
    cause.  The collector returns [None] exactly when the handle of the
    unit, its object or one of the three base properties cannot be fetched.
    It then stops at the first fetch that raises: it never reads the
    clock, has asked the bus at most five times, and logs exactly one line,
    at level DEBUG, [Failed to get stats for <unit>: <e>], where [e] is the
    exception which that first failing fetch raised. *)
Theorem failed_collection_is_logged_once (env : Env) (u : string) (w : Monitor) :
  let out := get_unit_stats env u w in
  let evs := new_events w (snd out) in
  let raised (e : exn) : Prop :=
    GetUnit env u = Raise e \/
    exists p : string,
      GetUnit env u = Ok p /\
      (get_object env p = Raise e \/
       get_object env p = Ok tt /\
       (Get_str env p UNIT "ActiveState" = Raise e \/
        exists a : string,
          Get_str env p UNIT "ActiveState" = Ok a /\
          (Get_str env p UNIT "SubState" = Raise e \/
           exists s : string,
             Get_str env p UNIT "SubState" = Ok s /\
             Get_str env p UNIT "LoadState" = Raise e))) in
  (fst out = Ok None -> exists e : exn, raised e) /\
  (forall e : exn,
      raised e ->
      fst out = Ok None /\
      List.filter is_clock evs = [] /\
      (List.length (List.filter is_bus_call evs) <= 5)%nat /\
      List.filter is_log evs
      = [Log DEBUG ("Failed to get stats for " ++ u ++ ": " ++ str_exn e)]).
Proof.
  intros out evs raised. subst out evs raised. split.
  - run_collector; intros Hnone; try discriminate Hnone;
      repeat match goal with x : unit |- _ => destruct x end;
      eauto 20.
  - intros e He.
    unfold get_unit_stats, fetch_str. unfold_m.
    destruct He as [H1 | (p & Hp & [H2 | (Ho & [H3 | (a & Ha & [H4 | (s & Hs & H5)])])])];
      cbn;
      repeat match goal with
             | H : ?x = _ |- context [?x] => rewrite H; cbn
             end;
      tidy_trace; (split; [reflexivity |]); (split; [reflexivity |]);
      (split; [cbn; lia | reflexivity]).
Qed.

Lemma failed_collection_is_logged_once_witness :
  List.filter is_log
    (new_events fresh
       (snd (get_unit_stats Scenario.env_no_sub_state "nginx.service" fresh)))
  = [Log DEBUG ("Failed to get stats for " ++ "nginx.service" ++ ": "
                ++ str_exn Scenario.no_property)].
Proof.
  refine (proj2 (proj2 (proj2 (proj2 (failed_collection_is_logged_once
                                        Scenario.env_no_sub_state
                                        "nginx.service" fresh)
                                 Scenario.no_property _)))).
  right. exists "/org/freedesktop/systemd1/unit/nginx.service".
  split; [reflexivity |]. right. split; [reflexivity |].
  right. exists "active". split; [reflexivity |]. left. reflexivity.
Defined.

(** X8.  When every fetch answers, the snapshot of a service carries what
    the bus gave, value for value, and the clock reading taken after the
    last fetch; the calls are made in the order of the source: the handle,
    the object, the three base properties, [MainPID], [NRestarts], the
    three resource properties, the clock. *)
Theorem service_snapshot_carries_the_bus_values
  (env : Env) (u p a s l ufs : string) (pid restarts mem cpu : Z) (w : Monitor) :
  Str.endswith u ".service" = true ->
  GetUnit env u = Ok p ->
  get_object env p = Ok tt ->
  Get_str env p UNIT "ActiveState" = Ok a ->
  Get_str env p UNIT "SubState" = Ok s ->
  Get_str env p UNIT "LoadState" = Ok l ->
  Get_int env p SERVICE "MainPID" = Ok pid ->
  Get_int env p SERVICE "NRestarts" = Ok restarts ->
  Get_int env p UNIT "MemoryCurrent" = Ok mem ->
  Get_int env p UNIT "CPUUsageNSec" = Ok cpu ->
  Get_str env p UNIT "UnitFileState" = Ok ufs ->
  let out := get_unit_stats env u w in
  fst out =
    Ok (Some {| name := u;
                active_state := a;
                sub_state := s;
                load_state := l;
                unit_file_state := ufs;
                main_pid := pid;
                restart_count := restarts;
                memory_current := mem;
                cpu_usage_nsec := cpu;
                timestamp := time_time env (List.length (trace w) + 10) |}) /\
  new_events w (snd out) =
    [CallGetUnit u; CallGetObject p;
     CallGet p UNIT "ActiveState"; CallGet p UNIT "SubState"; CallGet p UNIT "LoadState";
     CallGet p SERVICE "MainPID"; CallGet p SERVICE "NRestarts";
     CallGet p UNIT "MemoryCurrent"; CallGet p UNIT "CPUUsageNSec";
     CallGet p UNIT "UnitFileState"; CallTime].
Proof.
  intros Hsuffix Hp Ho Ha Hs Hl Hpid Hn Hmem Hcpu Hufs out. subst out.
  run_collector. split.
  - do 3 f_equal. apply f_equal. rewrite !length_app. cbn. lia.
  - tidy_trace. reflexivity.
Qed.

Lemma service_snapshot_carries_the_bus_values_witness :
  fst (get_unit_stats Scenario.env_ok "nginx.service" fresh)
  = Ok (Some Scenario.nginx_collected).
Proof.
  exact (proj1 (service_snapshot_carries_the_bus_values Scenario.env_ok
                  "nginx.service" "/org/freedesktop/systemd1/unit/nginx.service"
                  "active" "running" "loaded" "enabled" 1234 2 52428800 1234567890 fresh
                  eq_refl eq_refl eq_refl eq_refl eq_refl eq_refl eq_refl eq_refl eq_refl
                  eq_refl eq_refl)).
Defined.

(** ** The metric emitter, continued *)

(** X9.  Failures before there is a socket.  When the time stamp of the
    snapshot cannot be converted (NaN or an infinity), no socket is opened;
    when the socket cannot be created, nothing is connected, sent or
    closed.  Either way the emitter returns normally after exactly one
    line at level ERROR that names the unit and what was raised. *)
Theorem failures_before_the_socket_are_errors
  (cfg : Config) (env : Env) (stats : UnitStats) (w : Monitor) (e : exn) :
  let failed :=
    Log ERROR ("Error formatting/sending stats for " ++ name stats ++ ": " ++ str_exn e) in
  (timestamp_ns (timestamp stats) = Raise e ->
   send_to_telegraf cfg env stats w = (Ok tt, push [failed] w)) /\
  (is_ok (timestamp_ns (timestamp stats)) = true ->
   socket_socket env = Raise e ->
   send_to_telegraf cfg env stats w = (Ok tt, push [SocketOpen; failed] w)).
Proof.
  intros failed. subst failed. rewrite send_to_telegraf_run. unfold send_events, format_line.
  split.
  - intros ->. reflexivity.
  - destruct (timestamp_ns (timestamp stats)); [| discriminate].
    intros _ ->. reflexivity.
Qed.

Lemma failures_before_the_socket_are_errors_witness :
  send_to_telegraf Scenario.cfg0 Scenario.env_ok (Scenario.nginx S754_nan) fresh
  = (Ok tt,
     push [Log ERROR "Error formatting/sending stats for nginx.service: cannot convert float NaN to integer"]
       fresh).
Proof.
  exact (proj1 (failures_before_the_socket_are_errors Scenario.cfg0 Scenario.env_ok
                  (Scenario.nginx S754_nan) fresh
                  (Exception "cannot convert float NaN to integer")) eq_refl).
Defined.

(** X10.  The good case of an emission, step by step: one socket is
    opened, connected to the configured path, given the line once, the
    success is logged at level DEBUG, and the socket is closed last. *)
Theorem successful_emission_trace
  (cfg : Config) (env : Env) (stats : UnitStats) (w : Monitor) (line : string) :
  format_line cfg stats = Ok line ->
  socket_socket env = Ok tt ->
  sock_connect env (telegraf_socket_path cfg) = Ok tt ->
  sock_send env line = Ok tt ->
  sock_close env = Ok tt ->
  new_events w (snd (send_to_telegraf cfg env stats w)) =
    [SocketOpen; SocketConnect (telegraf_socket_path cfg); SocketSend line;
     Log DEBUG ("Sent stats for " ++ name stats); SocketClose].
Proof.
  intros Hline Hopen Hconnect Hsend Hclose.
  rewrite send_to_telegraf_run. cbn [snd]. rewrite new_events_push.
  unfold send_events. now rewrite Hline, Hopen, Hconnect, Hsend, Hclose.
Qed.

Lemma successful_emission_trace_witness :
  count is_socket
    (new_events fresh (snd (send_to_telegraf Scenario.cfg0 Scenario.env_ok
                              (Scenario.nginx Scenario.t1) fresh))) = 4%nat.
Proof.
  rewrite (successful_emission_trace Scenario.cfg0 Scenario.env_ok
             (Scenario.nginx Scenario.t1) fresh _ eq_refl eq_refl eq_refl eq_refl eq_refl).
  reflexivity.
Defined.

(** ** The reconciler, continued *)

Section ReconcilerShape.

Variable cfg : Config.
Variable env : Env.

Lemma collections_app a b : collections (a ++ b) = (collections a ++ collections b)%list.
Proof. unfold collections. apply flat_map_app. Qed.

Lemma sent_app a b : sent (a ++ b) = (sent a ++ sent b)%list.
Proof. unfold sent. apply flat_map_app. Qed.

Lemma send_events_collections st : collections (send_events cfg env st) = [].
Proof.
  unfold send_events.
  destruct (format_line cfg st) as [line | e0]; [| reflexivity].
  destruct (socket_socket env) as [[] | e]; [| reflexivity].
  destruct (sock_connect env (telegraf_socket_path cfg)) as [[] | e1];
    [destruct (sock_send env line) as [[] | e2] |];
    destruct (sock_close env) as [[] | e3]; reflexivity.
Qed.

Lemma send_events_sent st :
  sent (send_events cfg env st) = []
  \/ exists line, format_line cfg st = Ok line /\ sent (send_events cfg env st) = [line].
Proof.
  unfold send_events.
  destruct (format_line cfg st) as [line | e0]; [| now left].
  destruct (socket_socket env) as [[] | e]; [| now left].
  destruct (sock_connect env (telegraf_socket_path cfg)) as [[] | e1];
    [destruct (sock_send env line) as [[] | e2] |];
    destruct (sock_close env) as [[] | e3]; cbn; eauto.
Qed.

Lemma transition_events_quiet u old st :
  collections (transition_events u old st) = [] /\ sent (transition_events u old st) = [].
Proof.
  unfold transition_events. destruct old as [o |]; [| auto].
  destruct (String.eqb _ _); auto.
Qed.

(** One collection and emission, with the state store spelled out. *)
Lemma collect_and_send_shape u w :
  exists (evs : list event) (w' : Monitor),
    collect_and_send_unit_stats cfg env u w = (Ok tt, w') /\
    trace w' = (trace w ++ evs)%list /\
    filtered_units w' = filtered_units w /\
    collections evs = [u] /\
    ((units w' = units w /\ sent evs = []) \/
     exists st : UnitStats,
       name st = u /\ units w' = <[u := st]> (units w) /\
       (sent evs = [] \/ exists line, format_line cfg st = Ok line /\ sent evs = [line])).
Proof.
  destruct (get_unit_stats_shape env u w) as (r & evs & Hget & Hc & Hs & _).
  destruct (get_unit_stats_frame cfg env u w) as (r' & evs' & Hget' & _ & _ & _ & Hname).
  rewrite Hget in Hget'. injection Hget' as <- _.
  rewrite (collect_and_send_run cfg env u w r _ Hget).
  destruct r as [st |].
  - eexists. eexists. split; [reflexivity |]. cbn [trace push store units filtered_units].
    split; [rewrite <- app_assoc; reflexivity |]. split; [reflexivity |].
    destruct (transition_events_quiet u (units w !! u) st) as [Hq1 Hq2].
    split.
    + rewrite !collections_app, Hc, Hq1, send_events_collections. reflexivity.
    + right. exists st. split; [now apply Hname |]. split; [reflexivity |].
      rewrite !sent_app, Hs, Hq2. cbn [app sent flat_map].
      exact (send_events_sent st).
  - exists evs. eexists. split; [reflexivity |]. cbn.
    split; [reflexivity |]. split; [reflexivity |]. split; [exact Hc |].
    left. split; [reflexivity | exact Hs].
Qed.

Lemma for_each_collect_collections names w :
  collections
    (new_events w (snd (for_each names (collect_and_send_unit_stats cfg env) w)))
  = names.
Proof.
  revert w. induction names as [| n names IH]; intros w.
  - cbn. unfold new_events. now rewrite drop_all.
  - cbn [for_each]. unfold bind at 1.
    destruct (collect_and_send_shape n w) as (evs & w1 & Hrun & Ht & _ & Hc & _).
    rewrite Hrun. specialize (IH w1).
    destruct (for_each_collect cfg env names w1) as (evs2 & w2 & Hrun2 & Ht2 & _).
    rewrite Hrun2 in IH |- *. cbn [snd] in *.
    unfold new_events in *. rewrite Ht2 in IH |- *. rewrite Ht.
    rewrite drop_app_length in IH. rewrite <- app_assoc, drop_app_length.
    rewrite collections_app, Hc, IH. reflexivity.
Qed.

End ReconcilerShape.

(** X11.  The discovery.  [get_all_units] never raises and never touches
    the state store.  When the bus lists the units, it returns the listed
    names that pass the filter, in the order of the list, and the scope set
    grows by exactly these; when the bus cannot list them, it returns the
    empty list, leaves the scope set alone and logs one line at level
    ERROR. *)
Theorem discovery_keeps_what_passes_the_filter
  (cfg : Config) (env : Env) (w : Monitor) :
  let out := get_all_units cfg env w in
  units (snd out) = units w /\
  (forall listed : list string,
      ListUnits env = Ok listed ->
      fst out = Ok (List.filter (should_monitor cfg) listed) /\
      (forall k : string,
          k ∈ filtered_units (snd out) <->
          (In k listed /\ should_monitor cfg k = true) \/ k ∈ filtered_units w)) /\
  (forall e : exn,
      ListUnits env = Raise e ->
      out = (Ok [],
             push [CallListUnits; Log ERROR ("Failed to get unit list: " ++ str_exn e)] w)).
Proof.
  intros out.
  assert (H : match ListUnits env with
              | Ok listed =>
                  exists w' : Monitor,
                    get_all_units cfg env w
                    = (Ok (List.filter (should_monitor cfg) listed), w') /\
                    units w' = units w /\
                    (forall k : string,
                        k ∈ filtered_units w' <->
                        In k (List.filter (should_monitor cfg) listed)
                        \/ k ∈ filtered_units w)
              | Raise e =>
                  get_all_units cfg env w
                  = (Ok [],
                     push [CallListUnits;
                           Log ERROR ("Failed to get unit list: " ++ str_exn e)] w)
              end).
  { unfold get_all_units, try_except, bind at 1. rewrite call_run.
    destruct (ListUnits env) as [all | e].
    - destruct (for_each_scope_add (List.filter (should_monitor cfg) all)
                  (push [CallListUnits] w)) as (w' & Hrun & Hu & Ht & Hs).
      unfold bind at 1. rewrite Hrun. unfold bind, log, record, ret. cbn.
      eexists. split; [reflexivity |]. cbn. split; [exact Hu | exact Hs].
    - unfold bind, log, record, ret. cbn.
      unfold push. cbn. rewrite <- app_assoc. reflexivity. }
  subst out. destruct (ListUnits env) as [all | e].
  - destruct H as (w' & -> & Hu & Hs). cbn [fst snd].
    split; [exact Hu |]. split; [| intros e [=]].
    intros listed [= <-]. split; [reflexivity |].
    intros k. rewrite Hs, List.filter_In. tauto.
  - rewrite H. cbn [fst snd]. split; [reflexivity |].
    split; [intros listed [=] |]. intros e' [= <-]. reflexivity.
Qed.

Lemma discovery_keeps_what_passes_the_filter_witness :
  fst (get_all_units
         {| measurement := "systemd_units";
            telegraf_socket_path := "/run/telegraf/telegraf.sock";
            include_patterns := ["*.service"; "*.timer"];
            exclude_patterns := ["backup.*"];
            username := "testuser";
            uid := 1000 |}
         Scenario.env_ok fresh)
  = Ok ["nginx.service"].
Proof.
  refine (eq_trans (proj1 (proj1 (proj2 (discovery_keeps_what_passes_the_filter _
                                           Scenario.env_ok fresh)) _ eq_refl)) _).
  reflexivity.
Defined.

(** X12.  A lifecycle-removed notification for a unit that is not in the
    scope set does nothing at all: nothing is logged, and a state store
    entry that the unit may have stays where it is. *)
Theorem removal_outside_the_scope_is_ignored (u path : string) (w : Monitor) :
  u ∉ filtered_units w ->
  on_unit_removed u path w = (Ok tt, w).
Proof.
  intros Hu. rewrite on_unit_removed_run. now rewrite bool_decide_false.
Qed.

Lemma removal_outside_the_scope_is_ignored_witness :
  let w := {| units := {[ "test.service" := Scenario.test_service_old ]};
              filtered_units := ∅;
              trace := [] |} in
  units (snd (on_unit_removed "test.service" "/path/to/unit" w)) !! "test.service"
  = Some Scenario.test_service_old.
Proof.
  intros w.
  rewrite (removal_outside_the_scope_is_ignored "test.service" "/path/to/unit" w)
    by (vm_compute; discriminate).
  vm_compute. reflexivity.
Defined.

Lemma on_unit_new_run cfg env u path w :
  should_monitor cfg u = true ->
  on_unit_new cfg env u path w
  = collect_and_send_unit_stats cfg env u
      {| units := units w;
         filtered_units := {[u]} ∪ filtered_units w;
         trace := (trace w ++ [Log INFO ("New unit detected: " ++ u)])
                    ++ [ScopeAdd u] |}.
Proof. intros H. unfold on_unit_new. rewrite H. reflexivity. Qed.

Lemma on_unit_new_ignored cfg env u path w :
  should_monitor cfg u = false -> on_unit_new cfg env u path w = (Ok tt, w).
Proof. intros H. unfold on_unit_new. rewrite H. reflexivity. Qed.

(** X13.  A lifecycle-new notification.  A unit that fails the filter is
    ignored: nothing is recorded and nothing is asked of the bus.  A unit
    that passes it is in the scope set afterwards whatever the collection
    did; exactly one collection is made, for that unit; the entries of the
    other units in the state store are untouched; and the unit's own entry
    is either as before or a snapshot under its own name. *)
Theorem arrival_tracks_the_unit_before_collecting
  (cfg : Config) (env : Env) (u path : string) (w : Monitor) :
  (should_monitor cfg u = false -> on_unit_new cfg env u path w = (Ok tt, w)) /\
  (should_monitor cfg u = true ->
   let out := on_unit_new cfg env u path w in
   fst out = Ok tt /\
   filtered_units (snd out) = {[u]} ∪ filtered_units w /\
   collections (new_events w (snd out)) = [u] /\
   (forall k : string, k <> u -> units (snd out) !! k = units w !! k) /\
   (units (snd out) !! u = units w !! u \/
    exists st : UnitStats, name st = u /\ units (snd out) !! u = Some st)).
Proof.
  split; [apply on_unit_new_ignored |].
  intros Hu out. subst out. rewrite (on_unit_new_run cfg env u path w Hu).
  match goal with |- context [collect_and_send_unit_stats cfg env u ?w1] =>
    destruct (collect_and_send_shape cfg env u w1)
      as (evs & w' & -> & Ht & Hs & Hc & Hstore) end.
  cbn [fst snd trace filtered_units units] in *.
  split; [reflexivity |]. split; [exact Hs |]. split.
  - unfold new_events. rewrite Ht, <- !app_assoc, drop_app_length.
    rewrite !collections_app, Hc. reflexivity.
  - destruct Hstore as [[-> _] | (st & Hn & -> & _)].
    + split; [reflexivity | now left].
    + split; [intros k Hk; now rewrite lookup_insert_ne |].
      right. exists st. split; [exact Hn |].
      rewrite lookup_insert. now rewrite decide_True.
Qed.

Lemma arrival_tracks_the_unit_before_collecting_witness :
  "nginx.service" ∈
    filtered_units
      (snd (on_unit_new Scenario.cfg0 Scenario.env_no_unit
              "nginx.service" "/org/freedesktop/systemd1/unit/nginx" fresh)).
Proof.
  rewrite (proj1 (proj2 (proj2 (arrival_tracks_the_unit_before_collecting
                                  Scenario.cfg0 Scenario.env_no_unit
                                  "nginx.service"
                                  "/org/freedesktop/systemd1/unit/nginx" fresh)
                            eq_refl))).
  clear. set_solver.
Defined.

(** X14.  Arrival followed by removal.  When a unit that passes the filter
    is announced and then removed, it is left neither in the scope set nor in
    the state store, whatever the collection in between did; everything else
    in both containers is as it was before the arrival. *)
Theorem arrival_then_removal_leaves_no_residue
  (cfg : Config) (env : Env) (u path : string) (w : Monitor) :
  should_monitor cfg u = true ->
  let w1 := snd (on_unit_new cfg env u path w) in
  let w2 := snd (on_unit_removed u path w1) in
  filtered_units w2 = filtered_units w ∖ {[u]} /\
  units w2 = delete u (units w).
Proof.
  intros Hu w1 w2. subst w2 w1. rewrite (on_unit_new_run cfg env u path w Hu).
  match goal with |- context [collect_and_send_unit_stats cfg env u ?w1] =>
    destruct (collect_and_send_shape cfg env u w1)
      as (evs & w' & -> & Ht & Hs & Hc & Hstore) end.
  cbn [fst snd trace filtered_units units] in *.
  rewrite on_unit_removed_run. cbn [snd].
  rewrite bool_decide_true by (rewrite Hs; clear; set_solver).
  cbn [filtered_units units]. split.
  - rewrite Hs. clear. set_solver.
  - destruct Hstore as [[-> _] | (st & _ & -> & _)]; [reflexivity |].
    apply delete_insert_eq.
Qed.

Lemma arrival_then_removal_leaves_no_residue_witness :
  let w := Scenario.tracking_test_service in
  let w1 := snd (on_unit_new Scenario.cfg0 Scenario.env_ok
                   "nginx.service" "/org/freedesktop/systemd1/unit/nginx" w) in
  let w2 := snd (on_unit_removed
                   "nginx.service" "/org/freedesktop/systemd1/unit/nginx" w1) in
  filtered_units w2 = filtered_units w ∖ {["nginx.service"]} /\
  units w2 = delete "nginx.service" (units w).
Proof.
  exact (arrival_then_removal_leaves_no_residue
           Scenario.cfg0 Scenario.env_ok
           "nginx.service" "/org/freedesktop/systemd1/unit/nginx"
           Scenario.tracking_test_service eq_refl).
Defined.

(** X15.  One polling cycle.  [poll_units] never raises, leaves the scope
    set as it is, and collects every unit of the scope set exactly once, in
    the order in which the set is listed; no unit outside the scope set is
    collected, and its state store entry is untouched. *)
Theorem poll_collects_each_unit_in_scope_once
  (cfg : Config) (env : Env) (w : Monitor) :
  let out := poll_units cfg env w in
  fst out = Ok tt /\
  filtered_units (snd out) = filtered_units w /\
  collections (new_events w (snd out)) = elements (filtered_units w) /\
  (forall k : string, k ∉ filtered_units w -> units (snd out) !! k = units w !! k).
Proof.
  intros out. subst out. rewrite poll_units_run.
  pose proof (for_each_collect_collections cfg env (elements (filtered_units w)) w) as Hc.
  destruct (for_each_collect cfg env (elements (filtered_units w)) w)
    as (evs & w' & Hrun & _ & Hs & Hk & _).
  rewrite Hrun in Hc |- *. cbn [fst snd] in *.
  split; [reflexivity |]. split; [exact Hs |]. split; [exact Hc |].
  intros k Hn. apply Hk. intros Hin. apply Hn.
  now apply elem_of_elements, list_elem_of_In.
Qed.

Section ScopeFacts.

Variable cfg : Config.

Lemma collect_keeps_scope_filtered env u w :
  scope_filtered cfg w ->
  scope_filtered cfg (snd (collect_and_send_unit_stats cfg env u w)).
Proof.
  intros Hw. destruct (collect_and_send_shape cfg env u w) as (evs & w' & -> & _ & Hs & _).
  unfold scope_filtered in *. cbn [snd]. now rewrite Hs.
Qed.

Lemma dispatch_keeps_scope_filtered env sig w :
  scope_filtered cfg w -> scope_filtered cfg (snd (dispatch cfg env sig w)).
Proof.
  intros Hw. destruct sig as [u path | u path | iface |]; cbn [dispatch].
  - destruct (should_monitor cfg u) eqn:Hu.
    + rewrite (on_unit_new_run cfg env u path w Hu).
      apply collect_keeps_scope_filtered.
      unfold scope_filtered in *. cbn [filtered_units]. intros k Hk.
      apply elem_of_union in Hk as [Hk | Hk]; [| now apply Hw].
      apply elem_of_singleton in Hk. now subst k.
    + now rewrite (on_unit_new_ignored cfg env u path w Hu).
  - rewrite on_unit_removed_run. cbn [snd].
    destruct (bool_decide _); [| exact Hw].
    unfold scope_filtered in *. cbn [filtered_units]. intros k Hk.
    apply Hw. clear - Hk. set_solver.
  - unfold on_properties_changed. destruct (String.eqb _ _); exact Hw.
  - rewrite poll_units_run.
    destruct (for_each_collect cfg env (elements (filtered_units w)) w)
      as (evs & w' & -> & _ & Hs & _).
    unfold scope_filtered in *. cbn [snd]. now rewrite Hs.
Qed.

Lemma after_signals_scope_filtered sigs w :
  scope_filtered cfg w -> scope_filtered cfg (after_signals cfg sigs w).
Proof.
  revert w. induction sigs as [| [env sig] sigs IH]; intros w Hw; cbn.
  - exact Hw.
  - apply IH. now apply dispatch_keeps_scope_filtered.
Qed.

Lemma initial_discovery_scope_filtered env :
  scope_filtered cfg (snd (initial_discovery cfg env fresh)).
Proof.
  unfold initial_discovery, bind at 1.
  destruct (get_all_units_frame cfg env fresh) as (names & w1 & Hrun & _ & Hs & Hp & _).
  rewrite Hrun. unfold bind at 1. rewrite log_run.
  destruct (for_each_collect cfg env names
              (push [Log INFO "Collecting initial unit statistics"] w1))
    as (evs & w2 & -> & _ & Hs2 & _).
  unfold scope_filtered. cbn [snd]. rewrite Hs2. cbn [push filtered_units].
  intros k Hk. apply Hs in Hk as [Hk | Hk]; [now apply Hp |].
  cbn in Hk. clear - Hk. set_solver.
Qed.

End ScopeFacts.

(** X16.  Over a whole run (the initial discovery from the empty monitor,
    then any sequence of notifications and polling cycles, each against any
    state of the operating system), every name in the scope set passes the
    unit filter of the configuration: a unit that the filter rejects is
    never in the scope set. *)
Theorem only_filtered_units_are_ever_in_scope
  (cfg : Config) (env0 : Env) (sigs : list (Env * signal)) (k : string) :
  k ∈ filtered_units (after_run cfg env0 sigs) ->
  should_monitor cfg k = true.
Proof.
  revert k. change (scope_filtered cfg (after_run cfg env0 sigs)).
  unfold after_run. apply after_signals_scope_filtered.
  apply initial_discovery_scope_filtered.
Qed.

Lemma only_filtered_units_are_ever_in_scope_witness :
  let cfg := {| measurement := "systemd_units";
                telegraf_socket_path := "/run/telegraf/telegraf.sock";
                include_patterns := ["*.service"; "*.timer"];
                exclude_patterns := ["backup.*"];
                username := "testuser";
                uid := 1000 |} in
  should_monitor cfg "nginx.service" = true /\
  should_monitor cfg "user.mount" = false /\
  should_monitor cfg "backup.timer" = false.
Proof.
  intros cfg. split; [| split; reflexivity].
  apply (only_filtered_units_are_ever_in_scope
           cfg Scenario.env_ok
           [(Scenario.env_ok, UnitNew "user.mount" "/org/freedesktop/systemd1/unit/user");
            (Scenario.env_refused, PollTick);
            (Scenario.env_ok, UnitRemoved "test.service" "/path/to/unit")]
           "nginx.service").
  vm_compute. reflexivity.
Defined.

(** X17.  One collection and emission.  [collect_and_send_unit_stats]
    never raises and never changes the scope set or the state store entry of
    another unit.  It sends at most one payload, and a payload that is sent
    is the line-protocol line of the snapshot that is stored under the
    unit's name when the call returns: what is emitted and what is
    remembered never differ. *)
Theorem emitted_line_is_the_stored_snapshot
  (cfg : Config) (env : Env) (u : string) (w : Monitor) :
  let out := collect_and_send_unit_stats cfg env u w in
  fst out = Ok tt /\
  filtered_units (snd out) = filtered_units w /\
  (forall k : string, k <> u -> units (snd out) !! k = units w !! k) /\
  (List.length (sent (new_events w (snd out))) <= 1)%nat /\
  (forall line : string,
      In line (sent (new_events w (snd out))) ->
      exists st : UnitStats,
        units (snd out) !! u = Some st /\ name st = u /\
        format_line cfg st = Ok line).
Proof.
  intros out. subst out.
  destruct (collect_and_send_shape cfg env u w)
    as (evs & w' & -> & Ht & Hs & _ & Hstore).
  cbn [fst snd]. unfold new_events. rewrite Ht, drop_app_length.
  split; [reflexivity |]. split; [exact Hs |].
  destruct Hstore as [[-> ->] | (st & Hn & -> & Hsent)].
  - split; [reflexivity |]. split; [cbn; lia |]. intros line [].
  - split; [intros k Hk; now rewrite lookup_insert_ne |].
    destruct Hsent as [-> | (line & Hl & ->)].
    + split; [cbn; lia |]. intros line [].
    + split; [cbn; lia |]. intros line' [<- | []].
      exists st. rewrite lookup_insert, decide_True by reflexivity. auto.
Qed.

Lemma emitted_line_is_the_stored_snapshot_witness :
  exists st : UnitStats,
    units (snd (collect_and_send_unit_stats
                  Scenario.cfg0 Scenario.env_ok "nginx.service" fresh))
      !! "nginx.service" = Some st /\
    name st = "nginx.service" /\
    format_line Scenario.cfg0 st
    = Ok (hd "" (sent (new_events fresh
                         (snd (collect_and_send_unit_stats
                                 Scenario.cfg0 Scenario.env_ok
                                 "nginx.service" fresh))))).
Proof.
  apply (proj2 (proj2 (proj2 (proj2 (emitted_line_is_the_stored_snapshot
                                       Scenario.cfg0 Scenario.env_ok
                                       "nginx.service" fresh))))).
  vm_compute. left. reflexivity.
Defined.

Lemma collections_scope_adds names : collections (map ScopeAdd names) = [].
Proof. induction names; cbn; auto. Qed.

Lemma get_all_units_trace cfg env w :
  exists (names : list string) (evs : list event) (w' : Monitor),
    get_all_units cfg env w = (Ok names, w') /\
    trace w' = (trace w ++ evs)%list /\
    collections evs = [] /\
    units w' = units w /\
    match ListUnits env with
    | Ok listed => names = List.filter (should_monitor cfg) listed
    | Raise _ => names = [] /\ filtered_units w' = filtered_units w
    end.
Proof.
  unfold get_all_units, try_except, bind at 1. rewrite call_run.
  destruct (ListUnits env) as [all | e].
  - destruct (for_each_scope_add (List.filter (should_monitor cfg) all)
                (push [CallListUnits] w)) as (w' & Hrun & Hu & Ht & Hs).
    unfold bind at 1. rewrite Hrun. unfold bind, log, record, ret. cbn.
    eexists. eexists. eexists. split; [reflexivity |]. cbn [trace units].
    split; [rewrite Ht; cbn [push trace]; rewrite <- !app_assoc; reflexivity |].
    split; [| split; [exact Hu | reflexivity]].
    rewrite !collections_app, collections_scope_adds. reflexivity.
  - unfold bind, log, record, ret. cbn.
    eexists. eexists. eexists. split; [reflexivity |]. cbn [trace units].
    split; [rewrite <- !app_assoc; reflexivity |].
    split; [reflexivity |]. split; [reflexivity |]. split; reflexivity.
Qed.

Lemma initial_discovery_shape cfg env w :
  exists w2 : Monitor,
    initial_discovery cfg env w = (Ok tt, w2) /\
    match ListUnits env with
    | Ok listed =>
        collections (new_events w w2) = List.filter (should_monitor cfg) listed
    | Raise _ =>
        collections (new_events w w2) = [] /\
        filtered_units w2 = filtered_units w /\
        units w2 = units w
    end.
Proof.
  unfold initial_discovery, bind at 1.
  destruct (get_all_units_trace cfg env w)
    as (names & evs1 & w1 & -> & Ht1 & Hc1 & Hu1 & Hcase).
  unfold bind at 1. rewrite log_run.
  pose proof (for_each_collect_collections cfg env names
                (push [Log INFO "Collecting initial unit statistics"] w1)) as Hc2.
  destruct (for_each_collect cfg env names
              (push [Log INFO "Collecting initial unit statistics"] w1))
    as (evs2 & w2 & Hrun2 & Ht2 & Hs2 & Hk2 & _).
  rewrite Hrun2 in Hc2 |- *. cbn [fst snd] in *.
  exists w2. split; [reflexivity |].
  assert (Hall : collections (new_events w w2) = names).
  { unfold new_events in *. rewrite Ht2 in Hc2 |- *. cbn [push trace] in *.
    rewrite drop_app_length in Hc2. rewrite Ht1, <- !app_assoc, drop_app_length.
    rewrite !collections_app, Hc1, Hc2. reflexivity. }
  destruct (ListUnits env) as [listed | e].
  - now rewrite Hall.
  - destruct Hcase as [-> Hs1].
    split; [exact Hall |]. cbn in Hrun2. injection Hrun2 as <-.
    cbn [push filtered_units units]. split; [exact Hs1 | exact Hu1].
Qed.

(** X18.  The start of a run.  The initial discovery never raises.  When
    the bus lists the units, exactly the listed units that pass the filter
    are collected, once each and in the order of the list.  When the bus
    cannot list them, nothing is collected and both the scope set and the
    state store are left as they were: the monitor carries on with an empty
    scope rather than stopping. *)
Theorem initial_discovery_collects_the_filtered_list
  (cfg : Config) (env : Env) (w : Monitor) :
  let out := initial_discovery cfg env w in
  fst out = Ok tt /\
  (forall listed : list string,
      ListUnits env = Ok listed ->
      collections (new_events w (snd out))
      = List.filter (should_monitor cfg) listed) /\
  (forall e : exn,
      ListUnits env = Raise e ->
      collections (new_events w (snd out)) = [] /\
      filtered_units (snd out) = filtered_units w /\
      units (snd out) = units w).
Proof.
  intros out. subst out.
  destruct (initial_discovery_shape cfg env w) as (w2 & -> & Hcase).
  cbn [fst snd]. split; [reflexivity |]. split.
  - intros listed Hl. now rewrite Hl in Hcase.
  - intros e He. now rewrite He in Hcase.
Qed.

Lemma initial_discovery_collects_the_filtered_list_witness :
  collections (new_events fresh (snd (initial_discovery Scenario.cfg0 Scenario.env_ok fresh)))
  = List.filter (should_monitor Scenario.cfg0)
      (value_or [] (ListUnits Scenario.env_ok)).
Proof.
  exact (proj1 (proj2 (initial_discovery_collects_the_filtered_list
                         Scenario.cfg0 Scenario.env_ok fresh)) _ eq_refl).
Defined.
